(** * Stepped-frequency time-domain IQ acquisition (scos_actions)

    A shallow embedding of
    [scos_actions/actions/acquire_stepped_freq_tdomain_iq.py]:
    the constructor of [SteppedFrequencyTimeDomainIqAcquisition], its
    entry point [__call__] and its [description] property, followed by
    the properties of the sequencer that hold (or fail) on that code. *)

From Stdlib Require Import ZArith Lia Sorted.
From Stdlib.Floats Require Import PrimFloat SpecFloat FloatOps.
From stdpp Require Import gmap strings list pretty.

Local Open Scope string_scope.
Local Open Scope list_scope.
Local Open Scope Z_scope.

(** ** Python values and exceptions *)

(** The scalars that occur in the parameter lists: [None] (the fill value
    of [zip_longest]), arbitrary-precision [int] and binary64 [float]. *)
Inductive pyval :=
| VNone
| VInt (z : Z)
| VFloat (f : float).

Definition type_name (v : pyval) : string :=
  match v with
  | VNone => "NoneType"
  | VInt _ => "int"
  | VFloat _ => "float"
  end.

Definition is_none (v : pyval) : bool :=
  match v with VNone => true | _ => false end.

Inductive exn :=
| TypeError (msg : string)
| AttributeError (attribute : string)
| IndexError
| ValueError
| OverflowError
| ZeroDivisionError
| ExternalError (what : string).

(** Outcome of a Python call: a value or a raised exception. *)
Inductive result (A : Type) :=
| Ok (a : A)
| Raise (e : exn).
Arguments Ok {A} a.
Arguments Raise {A} e.

Definition result_bind {A B} (r : result A) (f : A -> result B) : result B :=
  match r with
  | Ok a => f a
  | Raise e => Raise e
  end.

Definition result_map {A B} (f : A -> B) (r : result A) : result B :=
  result_bind r (fun a => Ok (f a)).

Notation "'let?' x := r 'in' k" := (result_bind r (fun x => k))
  (at level 10, x pattern, r at level 100, k at level 200).

(** Code that mutates an object of type [S] and may raise.  The state
    survives a raise: assignments made before the exception stay made. *)
Record M (S A : Type) := mkM { run : S -> result A * S }.
Arguments mkM {S A} run.
Arguments run {S A} m s.

Definition ret {S A} (a : A) : M S A := mkM (fun s => (Ok a, s)).
Definition bind {S A B} (m : M S A) (f : A -> M S B) : M S B :=
  mkM (fun s =>
         match run m s with
         | (Ok a, s') => run (f a) s'
         | (Raise e, s') => (Raise e, s')
         end).
Definition throw {S A} (e : exn) : M S A := mkM (fun s => (Raise e, s)).
(** The statement [raise e]. *)
Definition raise {S} (e : exn) : M S unit := throw e.
Definition lift {S A} (r : result A) : M S A := mkM (fun s => (r, s)).
Definition get {S} : M S S := mkM (fun s => (Ok s, s)).
Definition modify {S} (f : S -> S) : M S unit := mkM (fun s => (Ok tt, f s)).

Notation "x <- m ;; k" := (bind m (fun x => k))
  (at level 100, m at next level, right associativity).
Notation "m ;; k" := (bind m (fun _ => k))
  (at level 100, right associativity).

(** [for x in xs: body x] *)
Fixpoint for_each {S A} (xs : list A) (body : A -> M S unit) : M S unit :=
  match xs with
  | [] => ret tt
  | x :: xs' => body x ;; for_each xs' body
  end.

(** [enumerate(xs, start)] *)
Fixpoint enumerate {A} (start : Z) (xs : list A) : list (Z * A) :=
  match xs with
  | [] => []
  | x :: xs' => (start, x) :: enumerate (start + 1) xs'
  end.

(** ** Numbers *)

(** Exact value of an [int] as a binary64, rounded to nearest-even. *)
Definition float_of_Z (z : Z) : float :=
  SF2Prim (binary_normalize prec emax z 0 false).

(** [float(z)] raises [OverflowError] when [z] is out of range. *)
Definition py_float_of_int (z : Z) : result float :=
  let f := float_of_Z z in
  if is_infinity f then Raise OverflowError else Ok f.

(** Sign of [z - f] for a finite or infinite [f]: Python compares an
    [int] and a [float] by their exact values. *)
Definition Z_compare_float (z : Z) (f : float) : option comparison :=
  match Prim2SF f with
  | S754_nan => None
  | S754_infinity s => Some (if s then Gt else Lt)
  | S754_zero _ => Some (z ?= 0)
  | S754_finite s m e =>
      let v := if s then Z.neg m else Z.pos m in
      Some (if 0 <=? e then z ?= v * 2 ^ e else z * 2 ^ (- e) ?= v)
  end.

Definition unorderable (a b : pyval) : exn :=
  TypeError ("'<' not supported between instances of '" +:+ type_name a
             +:+ "' and '" +:+ type_name b +:+ "'").

(** [a < b] *)
Definition py_lt (a b : pyval) : result bool :=
  match a, b with
  | VInt x, VInt y => Ok (x <? y)
  | VFloat f, VFloat g => Ok (PrimFloat.ltb f g)
  | VInt x, VFloat g =>
      Ok (match Z_compare_float x g with Some Lt => true | _ => false end)
  | VFloat f, VInt y =>
      Ok (match Z_compare_float y f with Some Gt => true | _ => false end)
  | _, _ => Raise (unorderable a b)
  end.

(** ** Sequences *)

(** [zip_longest] of the sequences [ls]: one tuple per index below the longest length,
    short sequences padded with [None]. *)
Definition zip_longest (ls : list (list pyval)) : list (list pyval) :=
  (fun i => (fun l => default VNone (l !! i)) <$> ls)
    <$> seq 0 (max_list (length <$> ls)).

(** [t.index(None)], as a position; [ValueError] when absent. *)
Fixpoint index_none (t : list pyval) : result nat :=
  match t with
  | [] => Raise ValueError
  | v :: t' => if is_none v then Ok O else result_map S (index_none t')
  end.

(** [None in t] *)
Definition contains_none (t : list pyval) : bool := existsb is_none t.

(** [list.sort(key=...)] on already decorated [(key, item)] pairs, as a
    stable insertion sort.  Every comparison is [later < earlier], as in
    CPython, and within a list of two or more items every key takes part
    in a comparison, so a [None] key makes the sort raise exactly when
    CPython's does.  Which pair CPython compares first is reproduced for
    two items only: with more items and a [None] key the operand types in
    the message may be those of another pair, and with a NaN key the
    resulting order may differ. *)
Fixpoint sort_insert {A} (x : pyval * A) (s : list (pyval * A))
  : result (list (pyval * A)) :=
  match s with
  | [] => Ok [x]
  | y :: s' =>
      let? b := py_lt y.1 x.1 in
      if b : bool then result_map (cons y) (sort_insert x s') else Ok (x :: y :: s')
  end.

Fixpoint sort_decorated {A} (l : list (pyval * A)) : result (list (pyval * A)) :=
  match l with
  | [] => Ok []
  | x :: l' => let? s := sort_decorated l' in sort_insert x s
  end.

Fixpoint map_result {A B} (f : A -> result B) (l : list A) : result (list B) :=
  match l with
  | [] => Ok []
  | x :: l' => let? y := f x in let? ys := map_result f l' in Ok (y :: ys)
  end.

Definition list_sort {A} (key : A -> result pyval) (l : list A) : result (list A) :=
  let? decorated := map_result (fun x => let? k := key x in Ok (k, x)) l in
  let? sorted := sort_decorated decorated in
  Ok (snd <$> sorted).

(** ** The action object *)

(** The [parameters] mapping handed to the constructor, with the four
    keys the constructor reads. *)
Record Parameters := {
  fcs : list pyval;
  gains : list pyval;
  sample_rates : list pyval;
  durations_ms : list pyval;
}.

(** A [MeasurementParams] object. *)
Record MeasurementParams := {
  center_frequency : pyval;
  gain : pyval;
  sample_rate : pyval;
  duration_ms : pyval;
}.

Inductive Radio := RadioRef (id : nat).

(** Values held by the attributes of an instance. *)
Inductive attr :=
| AParameters (p : Parameters)
| ADicts (l : list (list (string * pyval)))
| AMeasurementParams (l : list MeasurementParams)
| ARadio (r : Radio)
| ALen (n : nat)
| AStr (s : string).

(** The attribute dictionary of an instance, including what it inherits. *)
Abbreviation instance := (gmap string attr).

(** [self.name = v] *)
Definition setattr (name : string) (v : attr) : M instance unit :=
  modify (fun self => <[name := v]> self).

(** [self.name], read *)
Definition getattr (self : instance) (name : string) : result attr :=
  match self !! name with
  | Some v => Ok v
  | None => Raise (AttributeError name)
  end.

Definition parameter_names : list string :=
  ["center_frequency"; "gain"; "sample_rate"; "duration_ms"].

(** [sortFrequency(zipped_params)] is [zipped_params[0]]. *)
Definition sortFrequency (zipped_params : list pyval) : result pyval :=
  match zipped_params !! 0%nat with
  | Some v => Ok v
  | None => Raise IndexError
  end.

(** [TypeError("Wrong number of {}s, expected {}".format(param_name, expected))] *)
Definition wrong_number (param_name : string) (expected : nat) : exn :=
  TypeError ("Wrong number of " +:+ param_name +:+ "s, expected " +:+ pretty expected).

(** [self.sorted_measurement_parameters.append(d)] *)
Definition append_sorted_measurement_parameters (d : list (string * pyval))
  : M instance unit :=
  self <- get ;;
  match self !! "sorted_measurement_parameters" with
  | Some (ADicts l) => setattr "sorted_measurement_parameters" (ADicts (l ++ [d]))
  | Some _ => raise (AttributeError "append")
  | None => raise (AttributeError "sorted_measurement_parameters")
  end.

(** The body of the loop of [__init__] over the sorted tuples. *)
Definition check_params (num_center_frequencies : nat) (params : list pyval)
  : M instance unit :=
  if contains_none params then
    i <- lift (index_none params) ;;
    param_name <- lift (match parameter_names !! (i : nat) with
                        | Some n => Ok n
                        | None => Raise IndexError
                        end) ;;
    raise (wrong_number param_name num_center_frequencies) ;;
    append_sorted_measurement_parameters (zip parameter_names params)
  else ret tt.

(** The constructor, run on the instance as [super().__init__()] left it. *)
Definition __init__ (parameters : Parameters) (radio : Radio) : M instance unit :=
  setattr "parameters" (AParameters parameters) ;;
  setattr "sorted_measurement_parameters" (ADicts []) ;;
  let num_center_frequencies := length (fcs parameters) in
  sorted_params <- lift (list_sort sortFrequency
    (zip_longest [fcs parameters; gains parameters;
                  sample_rates parameters; durations_ms parameters])) ;;
  for_each sorted_params (check_params num_center_frequencies) ;;
  setattr "radio" (ARadio radio) ;;
  setattr "num_center_frequencies" (ALen num_center_frequencies).

(** [len(self.sorted_measurement_parameters) > 1] *)
Definition is_multirecording (self : instance) : result bool :=
  let? a := getattr self "sorted_measurement_parameters" in
  match a with
  | ADicts l => Ok (1 <? length l)%nat
  | AMeasurementParams l => Ok (1 <? length l)%nat
  | AStr s => Ok (1 <? String.length s)%nat
  | _ => Raise (TypeError "object has no len()")
  end.

(** ** Measurement results and SigMF metadata *)

(** One complex sample. *)
Definition sample : Type := float * float.

(** A schedule entry or sensor definition, as decoded JSON. *)
Definition json : Type := list (string * string).

(** What [acquire_data] returns for one step. *)
Record MeasurementResult := {
  data : list sample;
  capture_time : string;
  tuned_frequency : pyval;
  tuned_gain : pyval;
  tuned_sample_rate : pyval;
}.

Record GlobalRecord := {
  schedule_entry : json;
  sensor : json;
  task : Z;
}.

Record MeasurementRecord := {
  time_start : string;
  time_stop : string;
  measured_samples : nat;
  recording : Z;
}.

Record CaptureRecord := {
  capture_frequency : pyval;
  capture_gain : pyval;
  capture_sample_rate : pyval;
  capture_datetime : string;
}.

Record Annotation := {
  annotation_type : string;
  sample_start : nat;
  sample_count : nat;
}.

(** The [metadata] of a [SigMFBuilder]. *)
Record Metadata := {
  md_global : option GlobalRecord;
  md_measurement : option MeasurementRecord;
  captures : list CaptureRecord;
  annotations : list Annotation;
}.

(** [SigMFBuilder()] *)
Definition SigMFBuilder : Metadata :=
  {| md_global := None; md_measurement := None; captures := []; annotations := [] |}.

(** Modelled from the spec: [get_sigmf_global] of the parent action is not
    part of the sources; it attaches the global sweep record (schedule
    entry, sensor, task). *)
Definition get_sigmf_global (sigmf_builder : Metadata)
    (schedule_entry_json sensor_definition : json)
    (measurement_result : MeasurementResult) (start_time end_time : string)
    (task_id : Z) : Metadata :=
  {| md_global := Some {| schedule_entry := schedule_entry_json;
                          sensor := sensor_definition;
                          task := task_id |};
     md_measurement := md_measurement sigmf_builder;
     captures := captures sigmf_builder;
     annotations := annotations sigmf_builder |}.

(** Modelled from the spec: [get_sigmf_global_measurement] of the parent
    action is not part of the sources; it sets the per-step measurement
    record (capture start and end, sample count = length of the data) and
    the recording identifier. *)
Definition get_sigmf_global_measurement (sigmf_builder : Metadata)
    (start_time end_time : string) (measurement_result : MeasurementResult)
    (recording_id : Z) : Metadata :=
  {| md_global := md_global sigmf_builder;
     md_measurement := Some {| time_start := start_time;
                               time_stop := end_time;
                               measured_samples := length (data measurement_result);
                               recording := recording_id |};
     captures := captures sigmf_builder;
     annotations := annotations sigmf_builder |}.

(** Modelled from the spec: [get_sigmf_capture] of the parent action is not
    part of the sources; it appends the capture record (frequency, gain and
    sample rate actually used). *)
Definition get_sigmf_capture (sigmf_builder : Metadata)
    (measurement_result : MeasurementResult) : Metadata :=
  {| md_global := md_global sigmf_builder;
     md_measurement := md_measurement sigmf_builder;
     captures := captures sigmf_builder ++
       [{| capture_frequency := tuned_frequency measurement_result;
           capture_gain := tuned_gain measurement_result;
           capture_sample_rate := tuned_sample_rate measurement_result;
           capture_datetime := capture_time measurement_result |}];
     annotations := annotations sigmf_builder |}.

(** Modelled from the spec: [get_sigmf_annotation] of the parent action is
    not part of the sources; it appends the sensor and the calibration
    annotation, both spanning all samples of the step's data. *)
Definition get_sigmf_annotation (sigmf_builder : Metadata)
    (measurement_result : MeasurementResult) : Metadata :=
  let n := length (data measurement_result) in
  {| md_global := md_global sigmf_builder;
     md_measurement := md_measurement sigmf_builder;
     captures := captures sigmf_builder;
     annotations := annotations sigmf_builder ++
       [{| annotation_type := "SensorAnnotation"; sample_start := 0; sample_count := n |};
        {| annotation_type := "CalibrationAnnotation"; sample_start := 0; sample_count := n |}] |}.

(** What a receiver of [measurement_action_completed] is handed. *)
Record Notification := {
  task_id : Z;
  sent_data : list sample;
  metadata : Metadata;
}.

(** Calls that leave the action, in the order they are made. *)
Inductive event :=
| Acquire (measurement_params : list (string * pyval))
| Send (n : Notification).

(** ** The entry point *)

Section EntryPoint.

(** The signal analyzer, the clock and the signal receivers. *)
Variable World : Type.
Variable test_required_components : World -> result unit * World.
Variable get_datetime_str_now : World -> string * World.
Variable acquire_data : list (string * pyval) -> World -> result MeasurementResult * World.
Variable receivers : Notification -> World -> result unit * World.

Record Env := { world : World; trace : list event }.

Definition on_world {A} (f : World -> result A * World) : M Env A :=
  mkM (fun s => let (r, w) := f (world s) in
                (r, {| world := w; trace := trace s |})).

Definition emit (e : event) : M Env unit :=
  modify (fun s => {| world := world s; trace := trace s ++ [e] |}).

Definition now : M Env string :=
  on_world (fun w => let (t, w') := get_datetime_str_now w in (Ok t, w')).

(** [super().acquire_data(measurement_params)] *)
Definition super_acquire_data (measurement_params : list (string * pyval))
  : M Env MeasurementResult :=
  emit (Acquire measurement_params) ;;
  on_world (acquire_data measurement_params).

(** [measurement_action_completed.send(...)] *)
Definition send (n : Notification) : M Env unit :=
  emit (Send n) ;;
  on_world (receivers n).

Definition sorted_measurement_parameters (self : instance)
  : result (list (list (string * pyval))) :=
  let? a := getattr self "sorted_measurement_parameters" in
  match a with
  | ADicts l => Ok l
  | _ => Raise (TypeError "object is not iterable")
  end.

(** One iteration of the loop of [__call__]. *)
Definition step (schedule_entry_json : json) (task_id : Z)
    (sensor_definition : json)
    (recording_id : Z) (measurement_params : list (string * pyval))
  : M Env unit :=
  start_time <- now ;;
  measurement_result <- super_acquire_data measurement_params ;;
  end_time <- now ;;
  let received_samples := length (data measurement_result) in
  let sigmf_builder := SigMFBuilder in
  let sigmf_builder :=
    get_sigmf_global sigmf_builder schedule_entry_json sensor_definition
      measurement_result start_time end_time task_id in
  let sigmf_builder :=
    get_sigmf_global_measurement sigmf_builder start_time end_time
      measurement_result recording_id in
  let sigmf_builder := get_sigmf_capture sigmf_builder measurement_result in
  let sigmf_builder := get_sigmf_annotation sigmf_builder measurement_result in
  send {| task_id := task_id;
          sent_data := data measurement_result;
          metadata := sigmf_builder |}.

(** The entry point called by the scheduler. *)
Definition __call__ (self : instance) (schedule_entry_json : json)
    (task_id : Z) (sensor_definition : json) : M Env unit :=
  on_world test_required_components ;;
  plan <- lift (sorted_measurement_parameters self) ;;
  for_each (enumerate 1 plan) (fun '(recording_id, measurement_params) =>
    step schedule_entry_json task_id sensor_definition
         recording_id measurement_params).

End EntryPoint.

Arguments world {World} e.
Arguments trace {World} e.
Arguments Build_Env {World} world trace.

(** ** The description *)

Definition unsupported (op : string) (a b : string) : exn :=
  TypeError ("unsupported operand type(s) for " +:+ op +:+ ": '" +:+ a
             +:+ "' and '" +:+ b +:+ "'").

Definition py_float (op : string) (v : pyval) (other_left : bool) : result float :=
  match v with
  | VNone => Raise (if other_left then unsupported op "float" "NoneType"
                    else unsupported op "NoneType" "float")
  | VInt z => py_float_of_int z
  | VFloat f => Ok f
  end.

(** [a / d] for a [float] divisor [d] *)
Definition py_div_float (a : pyval) (d : float) : result float :=
  let? x := py_float "/" a false in
  if PrimFloat.eqb d 0%float then Raise ZeroDivisionError
  else Ok (PrimFloat.div x d).

(** [x * b] for a [float] [x] *)
Definition py_float_mul (x : float) (b : pyval) : result float :=
  let? y := py_float "*" b true in Ok (PrimFloat.mul x y).

(** [a - y] for a [float] [y] *)
Definition py_sub_float (a : pyval) (y : float) : result float :=
  let? x := py_float "-" a false in Ok (PrimFloat.sub x y).

(** [int(x)] for a [float] [x]: truncation towards zero. *)
Definition py_int (x : float) : result Z :=
  match Prim2SF x with
  | S754_nan => Raise ValueError
  | S754_infinity _ => Raise OverflowError
  | S754_zero _ => Ok 0
  | S754_finite s m e =>
      let a := if 0 <=? e then Z.pos m * 2 ^ e else Z.pos m / 2 ^ (- e) in
      Ok (if s then - a else a)
  end.

Definition nl : string := String (Ascii.ascii_of_nat 10) "".

(** [sep.join(l)] *)
Fixpoint join (sep : string) (l : list string) : string :=
  match l with
  | [] => ""
  | [s] => s
  | s :: l' => s +:+ sep +:+ join sep l'
  end.

(** Local variables of [description] that the loop carries. *)
Record Frame := {
  acquisition_plan : string;
  total_samples : Z;
}.

(** The values substituted into the module docstring. *)
Record Defs := {
  defs_name : attr;
  defs_num_center_frequencies : attr;
  defs_center_frequencies : string;
  defs_acquisition_plan : string;
  defs_min_duration_ms : pyval;
  defs_total_samples : Z;
  defs_filesize_mb : float;
}.

Section Description.

(** Number formatting of the Python runtime and [numpy.sum]. *)
Variable format_2f : float -> string.
Variable float_repr : float -> string.
Variable object_repr : attr -> string.
Variable np_sum : list pyval -> result pyval.

(** [str(v)] *)
Definition str (v : pyval) : string :=
  match v with
  | VNone => "None"
  | VInt z => pretty z
  | VFloat f => float_repr f
  end.

Definition str_attr (a : attr) : string :=
  match a with
  | AStr s => s
  | ALen n => pretty n
  | _ => object_repr a
  end.

(** [acq_plan_template.format(fc_MHz=..., gain=..., ...)] *)
Definition acq_plan_template_format (fc_MHz : float) (gain : pyval)
    (sample_rate_Msps : float) (duration_ms : pyval) : string :=
  "1. Tune to " +:+ format_2f fc_MHz +:+ " MHz, "
  +:+ "set gain to " +:+ str gain +:+ " dB, "
  +:+ "and acquire at " +:+ format_2f sample_rate_Msps +:+ " Msps "
  +:+ "for " +:+ str duration_ms +:+ " ms" +:+ nl.

(** Iterating the attribute and reading the four attributes of each
    element: only [MeasurementParams] objects have them. *)
Definition measurement_params_objects (a : attr) : result (list MeasurementParams) :=
  match a with
  | AMeasurementParams l => Ok l
  | ADicts [] | AStr "" => Ok []
  | ADicts (_ :: _) | AStr _ => Raise (AttributeError "center_frequency")
  | _ => Raise (TypeError "object is not iterable")
  end.

Definition measurement_params_list (self : instance) : result (list MeasurementParams) :=
  let? a := getattr self "measurement_params_list" in
  measurement_params_objects a.

(** The body of the loop over the steps. *)
Definition description_step (measurement_params : MeasurementParams) : M Frame unit :=
  fc_MHz <- lift (py_div_float (center_frequency measurement_params) 1e6) ;;
  sample_rate_Msps <- lift (py_div_float (sample_rate measurement_params) 1e6) ;;
  let _ := acq_plan_template_format fc_MHz (gain measurement_params)
             sample_rate_Msps (duration_ms measurement_params) in
  n <- lift (let? x := py_div_float (duration_ms measurement_params) 1e6 in
             let? y := py_float_mul x (sample_rate measurement_params) in
             py_int y) ;;
  modify (fun fr => {| acquisition_plan := acquisition_plan fr;
                       total_samples := total_samples fr + n |}).

Definition item {A} (l : list A) (i : nat) : result A :=
  match l !! i with
  | Some x => Ok x
  | None => Raise IndexError
  end.

Definition format_min_duration (v : pyval) : result string :=
  match v with
  | VNone => Raise (TypeError "unsupported format string passed to NoneType.__format__")
  | VInt z => let? x := py_float_of_int z in Ok (format_2f x)
  | VFloat f => Ok (format_2f f)
  end.

(** The dictionary [defs] built by [description]. *)
Definition description_defs (self : instance) : M Frame Defs :=
  modify (fun fr => {| acquisition_plan := ""; total_samples := total_samples fr |}) ;;
  modify (fun fr => {| acquisition_plan := acquisition_plan fr; total_samples := 0 |}) ;;
  l <- lift (measurement_params_list self) ;;
  for_each l description_step ;;
  l <- lift (measurement_params_list self) ;;
  first <- lift (item l 0) ;;
  half <- lift (py_div_float (sample_rate first) 2) ;;
  f_low_edge <- lift (let? x := py_sub_float (center_frequency first) half in
                      py_div_float (VFloat x) 1e6) ;;
  last <- lift (item l (length l - 1)) ;;
  half <- lift (py_div_float (sample_rate last) 2) ;;
  f_high_edge <- lift (let? x := py_sub_float (center_frequency last) half in
                       py_div_float (VFloat x) 1e6) ;;
  min_duration_ms <- lift (np_sum (duration_ms <$> l)) ;;
  fr <- get ;;
  filesize_mb <- lift (py_div_float (VInt (total_samples fr * 8)) 1e6) ;;
  name <- lift (getattr self "name") ;;
  num_center_frequencies <- lift (getattr self "num_center_frequencies") ;;
  center_frequencies <- lift (map_result
    (fun param => let? x := py_div_float (center_frequency param) 1e6 in
                  Ok (format_2f x +:+ " MHz")) l) ;;
  fr <- get ;;
  ret {| defs_name := name;
         defs_num_center_frequencies := num_center_frequencies;
         defs_center_frequencies := join ", " center_frequencies;
         defs_acquisition_plan := acquisition_plan fr;
         defs_min_duration_ms := min_duration_ms;
         defs_total_samples := total_samples fr;
         defs_filesize_mb := filesize_mb |}.

(** The module docstring with [defs] substituted. *)
Definition doc_format (defs : Defs) : result string :=
  let? min_duration_ms := format_min_duration (defs_min_duration_ms defs) in
  Ok ("Capture time-domain IQ samples at the following "
      +:+ str_attr (defs_num_center_frequencies defs) +:+ " frequencies: "
      +:+ defs_center_frequencies defs +:+ "." +:+ nl +:+ nl
      +:+ "# " +:+ str_attr (defs_name defs) +:+ nl +:+ nl
      +:+ "## Radio setup and sample acquisition" +:+ nl +:+ nl
      +:+ "Each time this task runs, the following process is followed:" +:+ nl +:+ nl
      +:+ defs_acquisition_plan defs +:+ nl +:+ nl
      +:+ "This will take a minimum of " +:+ min_duration_ms
      +:+ " ms, not including radio" +:+ nl
      +:+ "tuning, dropping samples after retunes, and data storage." +:+ nl +:+ nl
      +:+ "## Time-domain processing" +:+ nl +:+ nl
      +:+ "If specified, a voltage scaling factor is applied to the complex time-domain"
      +:+ nl +:+ "signals." +:+ nl +:+ nl
      +:+ "## Data Archive" +:+ nl +:+ nl
      +:+ "Each capture will be $" +:+ pretty (defs_total_samples defs)
      +:+ "\; \text{samples} \times 8\;" +:+ nl
      +:+ "\text{bytes per sample} = " +:+ format_2f (defs_filesize_mb defs)
      +:+ "\; \text{MB}$ plus metadata." +:+ nl +:+ nl).

Definition initial_frame : Frame := {| acquisition_plan := ""; total_samples := 0 |}.

(** The [description] property. *)
Definition description (self : instance) : result string :=
  let? defs := (run (description_defs self) initial_frame).1 in
  doc_format defs.

End Description.

(** * Vocabulary of the properties *)

(** A value other than [None]. *)
Definition numeric (v : pyval) : Prop := is_none v = false.

(** The four parameter sequences have one common length. *)
Definition equal_lengths (p : Parameters) : Prop :=
  length (gains p) = length (fcs p) /\
  length (sample_rates p) = length (fcs p) /\
  length (durations_ms p) = length (fcs p).

(** No entry of the parameter sequences is [None]. *)
Definition all_numeric (p : Parameters) : Prop :=
  Forall numeric (fcs p) /\ Forall numeric (gains p) /\
  Forall numeric (sample_rates p) /\ Forall numeric (durations_ms p).

(** Some parameter sequence has a length of its own. *)
Definition lengths_differ (p : Parameters) : Prop :=
  ~ equal_lengths p.

(** No parameter sequence is longer than [fcs]. *)
Definition none_longer_than_fcs (p : Parameters) : Prop :=
  (length (gains p) <= length (fcs p))%nat /\
  (length (sample_rates p) <= length (fcs p))%nat /\
  (length (durations_ms p) <= length (fcs p))%nat.

(** The error of the validation loop, naming a field whose sequence is
    shorter than [fcs] and the length of [fcs]. *)
Definition short_field_error (p : Parameters) (e : exn) : Prop :=
  exists name seq,
    (name, seq) ∈ [("gain", gains p); ("sample_rate", sample_rates p);
                   ("duration_ms", durations_ms p)]
    /\ (length seq < length (fcs p))%nat
    /\ e = wrong_number name (length (fcs p)).

(** The notification [__call__] sends for a step that was started at
    [start_time], returned [measurement_result] and ended at [end_time]. *)
Definition assemble (schedule_entry_json : json) (task_id : Z)
    (sensor_definition : json) (recording_id : Z)
    (measurement_result : MeasurementResult) (start_time end_time : string)
  : Notification :=
  {| task_id := task_id;
     sent_data := data measurement_result;
     metadata :=
       get_sigmf_annotation
         (get_sigmf_capture
            (get_sigmf_global_measurement
               (get_sigmf_global SigMFBuilder schedule_entry_json sensor_definition
                  measurement_result start_time end_time task_id)
               start_time end_time measurement_result recording_id)
            measurement_result)
         measurement_result |}.

(** The notifications of a trace, in order. *)
Fixpoint sent (t : list event) : list Notification :=
  match t with
  | [] => []
  | Send n :: t' => n :: sent t'
  | Acquire _ :: t' => sent t'
  end.

(** The acquisitions requested in a trace, in order. *)
Fixpoint acquired (t : list event) : list (list (string * pyval)) :=
  match t with
  | [] => []
  | Acquire mp :: t' => mp :: acquired t'
  | Send _ :: t' => acquired t'
  end.

(** The recording identifier carried by a notification's metadata. *)
Definition recording_id (n : Notification) : option Z :=
  recording <$> md_measurement (metadata n).

(** The events of a sweep over [plan] whose first step is numbered [rid]:
    every acquisition is followed at once by the notification of that
    step, carrying that step's number, before the next acquisition; the
    sweep may stop after any notification, or on an acquisition that
    failed. *)
Inductive sweep_from : Z -> list (list (string * pyval)) -> list event -> Prop :=
| sweep_stop rid plan :
    sweep_from rid plan []
| sweep_abort rid mp plan :
    sweep_from rid (mp :: plan) [Acquire mp]
| sweep_step rid mp plan n t :
    recording_id n = Some rid ->
    sweep_from (rid + 1) plan t ->
    sweep_from rid (mp :: plan) (Acquire mp :: Send n :: t).

(** Sensor and calibration annotations span exactly the data sent. *)
Definition annotations_match_data (n : Notification) : Prop :=
  forall a, a ∈ annotations (metadata n) ->
    annotation_type a = "SensorAnnotation"
    \/ annotation_type a = "CalibrationAnnotation" ->
    sample_count a = length (sent_data n).

(** Partial correctness of a computation: from a state satisfying [P], a
    normal return yields a value and state satisfying [Q]. *)
Definition hoare {S A} (P : S -> Prop) (m : M S A) (Q : A -> S -> Prop) : Prop :=
  forall s, P s ->
    match run m s with
    | (Ok a, s') => Q a s'
    | (Raise _, _) => True
    end.

(** The local variable [acquisition_plan] holds the empty string. *)
Definition plan_text_empty (fr : Frame) : Prop := acquisition_plan fr = "".

(** ** Stand-ins for the collaborators, for concrete runs *)

(** [d[key]], with [None] for a missing key. *)
Fixpoint dict_get (key : string) (d : list (string * pyval)) : pyval :=
  match d with
  | [] => VNone
  | (k, v) :: d' => if String.eqb k key then v else dict_get key d'
  end.

(** A world that is just the reading of the clock. *)
Definition mock_ready (w : nat) : result unit * nat := (Ok tt, w).

Definition mock_not_ready (w : nat) : result unit * nat :=
  (Raise (ExternalError "signal analyzer is not available"), w).

Definition mock_clock (w : nat) : string * nat := (pretty w, S w).

Definition mock_acquire (measurement_params : list (string * pyval)) (w : nat)
  : result MeasurementResult * nat :=
  (Ok {| data := [(1%float, 0%float); (0%float, 1%float)];
         capture_time := pretty w;
         tuned_frequency := dict_get "center_frequency" measurement_params;
         tuned_gain := dict_get "gain" measurement_params;
         tuned_sample_rate := dict_get "sample_rate" measurement_params |}, w).

Definition mock_receivers (n : Notification) (w : nat) : result unit * nat := (Ok tt, w).

Definition mock_plan : list (list (string * pyval)) :=
  [zip parameter_names [VFloat 2400e6; VInt 10; VFloat 1e6; VInt 10];
   zip parameter_names [VFloat 2450e6; VInt 20; VFloat 1e6; VInt 10]].

Definition mock_action : instance :=
  {["sorted_measurement_parameters" := ADicts mock_plan]}.

Definition mock_env : Env nat := {| world := 0%nat; trace := [] |}.

Definition mock_format (x : float) : string := "0.00".

Definition mock_repr (a : attr) : string := "<object>".

(** A sum that handles [int] items only. *)
Fixpoint mock_sum (l : list pyval) : result pyval :=
  match l with
  | [] => Ok (VInt 0)
  | VInt z :: l' =>
      let? r := mock_sum l' in
      match r with
      | VInt y => Ok (VInt (z + y))
      | _ => Raise (TypeError "unsupported operand type(s) for +")
      end
  | _ :: _ => Raise (TypeError "unsupported operand type(s) for +")
  end.

Definition mock_described : instance :=
  <["measurement_params_list" :=
      AMeasurementParams [{| center_frequency := VFloat 2400e6; gain := VInt 10;
                             sample_rate := VInt 1000000; duration_ms := VInt 100 |}]]>
    (<["name" := AStr "acq"]> (<["num_center_frequencies" := ALen 1]> ∅)).

(** The length of the longest parameter sequence. *)
Definition longest (p : Parameters) : nat :=
  max_list (length <$> [fcs p; gains p; sample_rates p; durations_ms p]).

(** The exception of a comparison in which one side is [None]. *)
Definition compares_none (e : exn) : Prop :=
  exists a b, e = unorderable a b /\ (a = VNone \/ b = VNone).

(** Two steps, correctly described. *)
Definition mock_parameters : Parameters :=
  {| fcs := [VFloat 2450e6; VFloat 2400e6]; gains := [VInt 20; VInt 10];
     sample_rates := [VFloat 1e6; VFloat 1e6]; durations_ms := [VInt 10; VInt 10] |}.

(** Three frequencies, two gains. *)
Definition mock_short_gains : Parameters :=
  {| fcs := [VFloat 2400e6; VFloat 2450e6; VFloat 2500e6];
     gains := [VInt 10; VInt 20];
     sample_rates := [VFloat 1e6; VFloat 1e6; VFloat 1e6];
     durations_ms := [VInt 10; VInt 10; VInt 10] |}.

(** One frequency, two gains. *)
Definition mock_long_gains : Parameters :=
  {| fcs := [VInt 1]; gains := [VInt 1; VInt 2];
     sample_rates := [VInt 1]; durations_ms := [VInt 1] |}.

(** A signal analyzer that fails whenever a gain of 20 dB is requested. *)
Definition mock_acquire_overload (measurement_params : list (string * pyval)) (w : nat)
  : result MeasurementResult * nat :=
  match dict_get "gain" measurement_params with
  | VInt 20 => (Raise (ExternalError "overload"), w)
  | _ => mock_acquire measurement_params w
  end.

(** The number of samples [description] counts for one step:
    [int(duration_ms / 1e6 * sample_rate)]. *)
Definition step_samples (mp : MeasurementParams) : result Z :=
  let? x := py_div_float (duration_ms mp) 1e6 in
  let? y := py_float_mul x (sample_rate mp) in
  py_int y.

(** The sum of a list of integers. *)
Definition sum_Z (l : list Z) : Z := foldr Z.add 0 l.

(** The integer at the head of a tuple. *)
Definition head_int (row : list pyval) : Z :=
  match row with
  | VInt z :: _ => z
  | _ => 0
  end.

(** Tuples with integer frequencies, two of them equal. *)
Definition mock_rows : list (list pyval) :=
  [[VInt 3; VInt 1]; [VInt 1; VInt 2]; [VInt 3; VInt 4]].

(** ** The course of a sweep *)

Section Sweep.

Variable World : Type.
Variable get_datetime_str_now : World -> string * World.
Variable acquire_data : list (string * pyval) -> World -> result MeasurementResult * World.
Variable receivers : Notification -> World -> result unit * World.
Variables (se : json) (tid : Z) (sd : json).

(** [sweep rid plan w t r w'] : started in world [w] on the steps [plan],
    the first of them numbered [rid], the sweep emits exactly the events
    [t], ends with outcome [r] and leaves the world [w'].  Each step whose
    acquisition the device answers contributes its acquisition followed at
    once by one notification, assembled from the answer and numbered with
    the step's number; the next step starts only after the receivers
    accepted that notification.  The sweep ends normally when no step is
    left, and with the exception raised when the device fails on a step
    (the events end with that acquisition) or when a receiver fails (the
    events end with that notification); events emitted before stay
    emitted. *)
Inductive sweep :
  Z -> list (list (string * pyval)) -> World -> list event -> result unit -> World -> Prop :=
| sweep_finished rid w :
    sweep rid [] w [] (Ok tt) w
| sweep_acquisition_failed rid mp plan w t1 w1 e w2 :
    get_datetime_str_now w = (t1, w1) ->
    acquire_data mp w1 = (Raise e, w2) ->
    sweep rid (mp :: plan) w [Acquire mp] (Raise e) w2
| sweep_receiver_failed rid mp plan w t1 w1 mr w2 t2 w3 e w4 :
    get_datetime_str_now w = (t1, w1) ->
    acquire_data mp w1 = (Ok mr, w2) ->
    get_datetime_str_now w2 = (t2, w3) ->
    receivers (assemble se tid sd rid mr t1 t2) w3 = (Raise e, w4) ->
    sweep rid (mp :: plan) w
      [Acquire mp; Send (assemble se tid sd rid mr t1 t2)] (Raise e) w4
| sweep_step_completed rid mp plan w t1 w1 mr w2 t2 w3 w4 t r w' :
    get_datetime_str_now w = (t1, w1) ->
    acquire_data mp w1 = (Ok mr, w2) ->
    get_datetime_str_now w2 = (t2, w3) ->
    receivers (assemble se tid sd rid mr t1 t2) w3 = (Ok tt, w4) ->
    sweep (rid + 1) plan w4 t r w' ->
    sweep rid (mp :: plan) w
      (Acquire mp :: Send (assemble se tid sd rid mr t1 t2) :: t) r w'.

End Sweep.

(** * Properties *)

(** ** The monad *)

Lemma run_bind {S A B} (m : M S A) (f : A -> M S B) (s : S) :
  run (bind m f) s =
  match run m s with
  | (Ok a, s') => run (f a) s'
  | (Raise e, s') => (Raise e, s')
  end.
Proof. reflexivity. Qed.

Lemma run_lift {S A} (r : result A) (s : S) : run (lift r) s = (r, s).
Proof. reflexivity. Qed.

(** A loop whose body leaves the state alone leaves the state alone. *)
Lemma for_each_state_unchanged {S A} (body : A -> M S unit) (xs : list A) (s : S) :
  (forall x s0, (run (body x) s0).2 = s0) ->
  (run (for_each xs body) s).2 = s.
Proof.
  intros Hbody. revert s. induction xs as [|x xs IH]; intros s; [done|].
  cbn [for_each]. rewrite run_bind. specialize (Hbody x s).
  destruct (run (body x) s) as [[[]|e] s1]; simpl in *; subst; [apply IH|done].
Qed.

(** A loop whose body returns normally on every element returns normally. *)
Lemma for_each_ok {S A} (body : A -> M S unit) (xs : list A) (s : S) :
  (forall x, x ∈ xs -> forall s0, run (body x) s0 = (Ok tt, s0)) ->
  run (for_each xs body) s = (Ok tt, s).
Proof.
  induction xs as [|x xs IH]; intros Hbody; [done|].
  cbn [for_each]. rewrite run_bind, (Hbody x); [|by left].
  apply IH. intros y Hy. apply Hbody. by right.
Qed.

(** A loop raises as soon as its body raises on some element, provided the
    body leaves the state alone. *)
Lemma for_each_raises {S A} (body : A -> M S unit) (xs : list A) (x : A) (s : S) :
  x ∈ xs ->
  (forall y s0, (run (body y) s0).2 = s0) ->
  (forall s0, exists e, (run (body x) s0).1 = Raise e) ->
  exists e, (run (for_each xs body) s).1 = Raise e.
Proof.
  intros Hin Hst Hx. induction xs as [|y xs IH]; [by apply elem_of_nil in Hin|].
  cbn [for_each]. rewrite run_bind. pose proof (Hst y s) as Hy.
  destruct (run (body y) s) as [[[]|e] s1] eqn:E; simpl in *; subst.
  - apply elem_of_cons in Hin as [->|Hin]; [|by apply IH].
    destruct (Hx s) as [e He]. by rewrite E in He.
  - by exists e.
Qed.

(** A loop over elements on which the body either returns or raises an
    exception satisfying [P], both without touching the state, raises such
    an exception as soon as one element makes the body raise. *)
Lemma for_each_raises_with {S A} (P : exn -> Prop) (body : A -> M S unit)
    (xs : list A) (s : S) :
  (forall x, x ∈ xs ->
     run (body x) s = (Ok tt, s) \/ exists e, P e /\ run (body x) s = (Raise e, s)) ->
  (exists x, x ∈ xs /\ run (body x) s <> (Ok tt, s)) ->
  exists e, P e /\ run (for_each xs body) s = (Raise e, s).
Proof.
  induction xs as [|y xs IH]; intros Hall (x & Hx & Hraise).
  { by apply elem_of_nil in Hx. }
  cbn [for_each]. rewrite run_bind.
  destruct (Hall y ltac:(by left)) as [Hy|(e & He & Hy)]; rewrite Hy.
  - apply IH; [intros z Hz; apply Hall; by right|].
    apply elem_of_cons in Hx as [->|Hx]; [done|]. by exists x.
  - by exists e.
Qed.

(** ** Sorting *)

Lemma py_lt_numeric (a b : pyval) :
  numeric a -> numeric b -> exists c, py_lt a b = Ok c.
Proof. destruct a, b; unfold numeric; simpl; intros; try done; eauto. Qed.

Lemma sort_insert_perm {A} (x : pyval * A) (s s' : list (pyval * A)) :
  sort_insert x s = Ok s' -> s' ≡ₚ x :: s.
Proof.
  revert s'. induction s as [|y s IH]; intros s'; simpl.
  - by intros [= <-].
  - destruct (py_lt y.1 x.1) as [[]|]; simpl; [|by intros [= <-]|done].
    unfold result_map. destruct (sort_insert x s) as [s0|]; simpl; [|done].
    intros [= <-]. rewrite (IH s0 eq_refl). apply Permutation_swap.
Qed.

Lemma sort_decorated_perm {A} (l s : list (pyval * A)) :
  sort_decorated l = Ok s -> s ≡ₚ l.
Proof.
  revert s. induction l as [|x l IH]; intros s; simpl.
  - by intros [= <-].
  - destruct (sort_decorated l) as [s0|]; simpl; [|done].
    intros H%sort_insert_perm. by rewrite H, (IH s0).
Qed.

Lemma sort_insert_numeric {A} (x : pyval * A) (s : list (pyval * A)) :
  numeric x.1 -> Forall (fun y => numeric y.1) s ->
  exists s', sort_insert x s = Ok s'.
Proof.
  intros Hx. induction s as [|y s IH]; intros Hs; simpl; [eauto|].
  apply Forall_cons in Hs as [Hy Hs].
  destruct (py_lt_numeric y.1 x.1 Hy Hx) as [[] ->]; simpl; [|eauto].
  destruct (IH Hs) as [s' ->]. simpl. eauto.
Qed.

Lemma sort_decorated_numeric {A} (l : list (pyval * A)) :
  Forall (fun y => numeric y.1) l -> exists s, sort_decorated l = Ok s.
Proof.
  induction l as [|x l IH]; intros Hl; simpl; [eauto|].
  apply Forall_cons in Hl as [Hx Hl]. destruct (IH Hl) as [s Hs]. rewrite Hs. simpl.
  apply sort_insert_numeric; [done|].
  by rewrite (sort_decorated_perm _ _ Hs).
Qed.

Lemma map_result_decorate {A} (key : A -> result pyval) (l : list A) d :
  map_result (fun x => let? k := key x in Ok (k, x)) l = Ok d ->
  snd <$> d = l /\ Forall (fun y => key y.2 = Ok y.1) d.
Proof.
  revert d. induction l as [|x l IH]; intros d; simpl.
  - by intros [= <-].
  - destruct (key x) as [k|] eqn:Hk; simpl; [|done].
    destruct (map_result _ l) as [d0|]; simpl; [|done].
    intros [= <-]. destruct (IH d0 eq_refl) as [<- HF]. split; [done|].
    by constructor.
Qed.

(** Whatever [list.sort] returns is a rearrangement of its input. *)
Lemma list_sort_perm {A} (key : A -> result pyval) (l s : list A) :
  list_sort key l = Ok s -> s ≡ₚ l.
Proof.
  unfold list_sort. destruct (map_result _ l) as [d|] eqn:Hd; simpl; [|done].
  destruct (sort_decorated d) as [s0|] eqn:Hs; simpl; [|done].
  intros [= <-]. apply map_result_decorate in Hd as [<- _].
  by rewrite (sort_decorated_perm _ _ Hs).
Qed.

(** Sorting succeeds when every item has a numeric key. *)
Lemma list_sort_numeric {A} (key : A -> result pyval) (l : list A) :
  Forall (fun x => exists k, key x = Ok k /\ numeric k) l ->
  exists s, list_sort key l = Ok s.
Proof.
  intros Hl. unfold list_sort.
  assert (exists d, map_result (fun x => let? k := key x in Ok (k, x)) l = Ok d
                    /\ Forall (fun y => numeric y.1) d) as (d & -> & Hd).
  { induction Hl as [|x l (k & Hk & Hn) _ (d & IH & Hd)]; simpl; [eauto|].
    rewrite Hk. simpl. rewrite IH. simpl. eauto. }
  simpl. destruct (sort_decorated_numeric d Hd) as [s ->]. simpl. eauto.
Qed.

(** ** The constructor *)

Lemma check_params_state (n : nat) (params : list pyval) (s : instance) :
  (run (check_params n params) s).2 = s.
Proof.
  unfold check_params. destruct (contains_none params); [|done].
  rewrite run_bind, run_lift. destruct (index_none params) as [i|]; [|done].
  rewrite run_bind, run_lift. by destruct (parameter_names !! i).
Qed.

Lemma check_params_ok (n : nat) (params : list pyval) (s : instance) :
  contains_none params = false -> run (check_params n params) s = (Ok tt, s).
Proof. unfold check_params. by intros ->. Qed.

Lemma check_params_raises (n : nat) (params : list pyval) (s : instance) :
  contains_none params = true -> exists e, (run (check_params n params) s).1 = Raise e.
Proof.
  unfold check_params. intros ->.
  rewrite run_bind, run_lift. destruct (index_none params) as [i|]; [|by eexists].
  rewrite run_bind, run_lift. destruct (parameter_names !! i); by eexists.
Qed.

(** The two ways the constructor can end: it returns with all four
    attributes set, or it raises with only the first two set. *)
Lemma init_outcome (p : Parameters) (radio : Radio) (inherited : instance) :
  let s2 := <["sorted_measurement_parameters" := ADicts []]>
              (<["parameters" := AParameters p]> inherited) in
  run (__init__ p radio) inherited =
    (Ok tt, <["num_center_frequencies" := ALen (length (fcs p))]>
              (<["radio" := ARadio radio]> s2))
  \/ exists e, run (__init__ p radio) inherited = (Raise e, s2).
Proof.
  intros s2. unfold __init__.
  rewrite run_bind. cbn [setattr modify run]. rewrite run_bind. cbn [setattr modify run].
  fold s2. rewrite run_bind, run_lift.
  destruct (list_sort _ _) as [sorted|e]; [|right; by exists e].
  rewrite run_bind.
  pose proof (for_each_state_unchanged (check_params (length (fcs p))) sorted s2
                (check_params_state _)) as Hst.
  destruct (run (for_each sorted _) s2) as [[[]|e] s3]; simpl in Hst; subst s3.
  - by left.
  - right. by exists e.
Qed.

Lemma numeric_lookup (l : list pyval) (i : nat) :
  Forall numeric l -> (i < length l)%nat ->
  exists v, l !! i = Some v /\ numeric v.
Proof.
  intros Hl Hi. destruct (lookup_lt_is_Some_2 l i Hi) as [v Hv].
  exists v. split; [done|]. eapply Forall_lookup_1; eauto.
Qed.

Lemma zip_longest_valid_rows (p : Parameters) :
  equal_lengths p -> all_numeric p ->
  Forall (fun row => (exists k, sortFrequency row = Ok k /\ numeric k)
                     /\ contains_none row = false)
    (zip_longest [fcs p; gains p; sample_rates p; durations_ms p]).
Proof.
  intros (Hg & Hs & Hd) (Nf & Ng & Ns & Nd). unfold zip_longest.
  apply Forall_fmap, Forall_forall. intros i Hi%elem_of_seq.
  simpl in Hi. rewrite Hg, Hs, Hd in Hi.
  assert (i < length (fcs p))%nat as Hlt by lia.
  destruct (numeric_lookup _ i Nf Hlt) as (vf & Ef & Hf).
  destruct (numeric_lookup _ i Ng ltac:(lia)) as (vg & Eg & Hvg).
  destruct (numeric_lookup _ i Ns ltac:(lia)) as (vs & Es & Hvs).
  destruct (numeric_lookup _ i Nd ltac:(lia)) as (vd & Ed & Hvd).
  simpl. rewrite Ef, Eg, Es, Ed. simpl. split.
  - exists vf. by split.
  - unfold contains_none. simpl. unfold numeric in *. by rewrite Hf, Hvg, Hvs, Hvd.
Qed.

(** Equal-length numeric inputs are accepted by the constructor. *)
Lemma init_accepts_equal_lengths (p : Parameters) (radio : Radio) (inherited : instance) :
  equal_lengths p -> all_numeric p ->
  (run (__init__ p radio) inherited).1 = Ok tt.
Proof.
  intros Hlen Hnum. pose proof (zip_longest_valid_rows p Hlen Hnum) as Hrows.
  unfold __init__.
  rewrite run_bind. cbn [setattr modify run]. rewrite run_bind. cbn [setattr modify run].
  rewrite run_bind, run_lift.
  destruct (list_sort_numeric sortFrequency _
              (Forall_impl _ _ _ Hrows (fun _ H => proj1 H))) as [sorted Hsorted].
  rewrite Hsorted, run_bind, for_each_ok; [done|].
  intros row Hrow s0. apply check_params_ok.
  rewrite (list_sort_perm _ _ _ Hsorted) in Hrow.
  rewrite Forall_forall in Hrows. by apply Hrows.
Qed.

Lemma short_sequence_pads_none (ls : list (list pyval)) (l : list pyval) :
  l ∈ ls -> (length l < max_list (length <$> ls))%nat ->
  exists row, row ∈ zip_longest ls /\ contains_none row = true.
Proof.
  intros Hl Hlt. set (n := max_list (length <$> ls)) in *.
  exists ((fun l0 => default VNone (l0 !! (n - 1)%nat)) <$> ls). split.
  - unfold zip_longest. apply list_elem_of_fmap. exists (n - 1)%nat. split; [done|].
    apply elem_of_seq. fold n. lia.
  - unfold contains_none. apply existsb_exists. exists VNone. split; [|done].
    apply list_elem_of_In, list_elem_of_fmap. exists l. split; [|done].
    rewrite lookup_ge_None_2; [done|lia].
Qed.

(** Inputs of unequal lengths are always rejected, by one exception or
    another. *)
Lemma init_rejects_unequal_lengths (p : Parameters) (radio : Radio) (inherited : instance) :
  lengths_differ p -> exists e, (run (__init__ p radio) inherited).1 = Raise e.
Proof.
  intros Hdiff.
  assert (exists row, row ∈ zip_longest [fcs p; gains p; sample_rates p; durations_ms p]
                      /\ contains_none row = true) as (row & Hrow & Hnone).
  { set (ls := [fcs p; gains p; sample_rates p; durations_ms p]).
    assert (exists l, l ∈ ls /\ (length l < max_list (length <$> ls))%nat) as (l & Hl & Hlt).
    { unfold lengths_differ, equal_lengths in Hdiff. subst ls. simpl.
      destruct (decide (length (fcs p) < length (fcs p) `max` (length (gains p) `max`
                 (length (sample_rates p) `max` (length (durations_ms p) `max` 0))))%nat).
      { exists (fcs p). split; [set_solver|done]. }
      destruct (decide (length (gains p) < length (fcs p))%nat).
      { exists (gains p). split; [set_solver|lia]. }
      destruct (decide (length (sample_rates p) < length (fcs p))%nat).
      { exists (sample_rates p). split; [set_solver|lia]. }
      exists (durations_ms p). split; [set_solver|lia]. }
    by apply (short_sequence_pads_none ls l). }
  unfold __init__.
  rewrite run_bind. cbn [setattr modify run]. rewrite run_bind. cbn [setattr modify run].
  rewrite run_bind, run_lift.
  destruct (list_sort _ _) as [sorted|e] eqn:Hsorted; [|by exists e].
  rewrite run_bind.
  destruct (for_each_raises (check_params (length (fcs p))) sorted row
              (<["sorted_measurement_parameters" := ADicts []]>
                 (<["parameters" := AParameters p]> inherited))) as [e He].
  - by rewrite (list_sort_perm _ _ _ Hsorted).
  - apply check_params_state.
  - intros s0. by apply check_params_raises.
  - destruct (run (for_each sorted _) _) as [[[]|e'] s3]; simpl in He; [done|].
    by exists e'.
Qed.

(** What the validation loop does with the tuple of index [i]. *)
Lemma check_params_row (p : Parameters) (i : nat) (s : instance) :
  all_numeric p -> (i < length (fcs p))%nat ->
  let row := [default VNone (fcs p !! i); default VNone (gains p !! i);
              default VNone (sample_rates p !! i);
              default VNone (durations_ms p !! i)] in
  (contains_none row = false
   /\ run (check_params (length (fcs p)) row) s = (Ok tt, s))
  \/ exists e, short_field_error p e
               /\ run (check_params (length (fcs p)) row) s = (Raise e, s).
Proof.
  intros (Nf & Ng & Ns & Nd) Hi row. subst row.
  destruct (numeric_lookup _ i Nf Hi) as (vf & Ef & Hf).
  assert (forall l, Forall numeric l ->
            is_none (default VNone (l !! i)) = false
            \/ (default VNone (l !! i) = VNone
                /\ (length l < length (fcs p))%nat)) as Hcase.
  { intros l Hl. destruct (l !! i) as [v|] eqn:E.
    - left. eapply (Forall_lookup_1 numeric); eauto.
    - right. split; [done|]. apply lookup_ge_None_1 in E. lia. }
  rewrite Ef. cbn [default from_option id]. unfold numeric in Hf.
  unfold check_params, contains_none. cbn [existsb index_none]. rewrite Hf.
  destruct (Hcase _ Ng) as [Hg|[-> Hg]].
  2:{ right. exists (wrong_number "gain" (length (fcs p))). split; [|done].
      exists "gain", (gains p). split; [set_solver|done]. }
  rewrite Hg.
  destruct (Hcase _ Ns) as [Hs|[-> Hs]].
  2:{ right. exists (wrong_number "sample_rate" (length (fcs p))). split; [|done].
      exists "sample_rate", (sample_rates p). split; [set_solver|done]. }
  rewrite Hs.
  destruct (Hcase _ Nd) as [Hd|[-> Hd]].
  2:{ right. exists (wrong_number "duration_ms" (length (fcs p))). split; [|done].
      exists "duration_ms", (durations_ms p). split; [set_solver|done]. }
  rewrite Hd. by left.
Qed.

(** When no sequence is longer than [fcs] and some sequence is shorter,
    the constructor raises the error that names a field whose sequence is
    shorter than [fcs], with the length of [fcs] as the expected count. *)
Lemma init_names_short_field (p : Parameters) (radio : Radio) (inherited : instance) :
  all_numeric p -> none_longer_than_fcs p -> lengths_differ p ->
  exists e, short_field_error p e /\ (run (__init__ p radio) inherited).1 = Raise e.
Proof.
  intros Hnum (Hg & Hs & Hd) Hdiff.
  set (ls := [fcs p; gains p; sample_rates p; durations_ms p]).
  assert (max_list (length <$> ls) = length (fcs p)) as Hmax by (subst ls; simpl; lia).
  assert (forall row, row ∈ zip_longest ls -> exists i, (i < length (fcs p))%nat
            /\ row = [default VNone (fcs p !! i); default VNone (gains p !! i);
                      default VNone (sample_rates p !! i);
                      default VNone (durations_ms p !! i)]) as Hrows.
  { intros row (i & -> & Hi%elem_of_seq)%list_elem_of_fmap. exists i. split; [lia|done]. }
  destruct (list_sort_numeric sortFrequency (zip_longest ls)) as [sorted Hsorted].
  { apply Forall_forall. intros row (i & Hi & ->)%Hrows.
    destruct Hnum as (Nf & _). destruct (numeric_lookup _ i Nf Hi) as (vf & Ef & Hf).
    exists vf. unfold sortFrequency. simpl. by rewrite Ef. }
  destruct (init_rejects_unequal_lengths p radio inherited Hdiff) as [e0 He0].
  revert He0. unfold __init__.
  rewrite run_bind. cbn [setattr modify run]. rewrite run_bind. cbn [setattr modify run].
  rewrite run_bind, run_lift. fold ls. rewrite Hsorted, run_bind.
  set (s2 := <["sorted_measurement_parameters" := ADicts []]> _).
  intros He0.
  destruct (for_each_raises_with (short_field_error p)
              (check_params (length (fcs p))) sorted s2) as (e & He & Hrun).
  - intros row Hrow. rewrite (list_sort_perm _ _ _ Hsorted) in Hrow.
    destruct (Hrows row Hrow) as (i & Hi & ->).
    destruct (check_params_row p i s2 Hnum Hi) as [[_ H]|H]; [by left|by right].
  - destruct (decide (Forall (fun row => contains_none row = false) sorted))
      as [Hall|Hex].
    + rewrite for_each_ok in He0; [done|].
      intros x Hx s0. rewrite Forall_forall in Hall. by apply check_params_ok, Hall.
    + apply not_Forall_Exists in Hex; [|intros row; apply _].
      apply Exists_exists in Hex as (x & Hx & Hne%not_false_is_true).
      exists x. split; [done|].
      destruct (check_params_raises (length (fcs p)) x s2 Hne) as [e He].
      intros Heq. by rewrite Heq in He.
  - exists e. split; [done|]. by rewrite Hrun.
Qed.

(** The constructor on the example of unequal lengths with a short
    sequence: [fcs] of length 3, [gains] of length 2. *)
Example init_short_gains_names_gain :
  let p := {| fcs := [VFloat 2400e6; VFloat 2450e6; VFloat 2500e6];
              gains := [VInt 10; VInt 20];
              sample_rates := [VFloat 1e6; VFloat 1e6; VFloat 1e6];
              durations_ms := [VInt 10; VInt 10; VInt 10] |} in
  (run (__init__ p (RadioRef 0)) ∅).1
  = Raise (TypeError "Wrong number of gains, expected 3").
Proof. by vm_compute. Qed.

(** With two short sequences the field named is the one missing from the
    lowest-frequency tuple that lacks a value. *)
Example init_two_short_sequences :
  let p := {| fcs := [VInt 1; VInt 2; VInt 3];
              gains := [VInt 10; VInt 20];
              sample_rates := [VInt 1000000];
              durations_ms := [VInt 10; VInt 10; VInt 10] |} in
  (run (__init__ p (RadioRef 0)) ∅).1
  = Raise (TypeError "Wrong number of sample_rates, expected 3").
Proof. by vm_compute. Qed.

(** The sort is stable and orders mixed [int] and [float] keys by value. *)
Example list_sort_by_frequency :
  list_sort sortFrequency
    [[VInt 3; VInt 1]; [VFloat 2.5; VInt 2]; [VInt 1; VInt 3]; [VInt 3; VInt 4]]
  = Ok [[VInt 1; VInt 3]; [VFloat 2.5; VInt 2]; [VInt 3; VInt 1]; [VInt 3; VInt 4]].
Proof. by vm_compute. Qed.

(** C2: whatever the inputs and however the constructor ends, the stored
    plan [sorted_measurement_parameters] is the empty list: the [append]
    that follows the [raise] in the validation loop never takes effect. *)
Theorem init_stored_plan_is_empty (p : Parameters) (radio : Radio) (inherited : instance) :
  (run (__init__ p radio) inherited).2 !! "sorted_measurement_parameters"
  = Some (ADicts []).
Proof.
  destruct (init_outcome p radio inherited) as [->|[e ->]]; simpl.
  - rewrite !lookup_insert_ne by done. apply lookup_insert_eq.
  - apply lookup_insert_eq.
Qed.

(** C1 (fails on the code): for the single step [fcs = [2400e6]],
    [gains = [10]], [sample_rates = [1e6]], [durations_ms = [10]] the
    constructor returns normally and stores a plan of 0 records, not 1. *)
Theorem init_single_step_stores_no_record :
  let p := {| fcs := [VFloat 2400e6]; gains := [VInt 10];
              sample_rates := [VFloat 1e6]; durations_ms := [VInt 10] |} in
  let r := run (__init__ p (RadioRef 0)) ∅ in
  r.1 = Ok tt /\ r.2 !! "sorted_measurement_parameters" = Some (ADicts []).
Proof. vm_compute. done. Qed.

(** C4 (fails on the code): with [fcs = [1]] and [gains = [1, 2]] (the
    other two of length 1) the constructor raises the comparison error of
    the sort, which names no field and no expected count, instead of the
    error naming [gain] and the expected count 1. *)
Theorem init_longer_gains_raises_unnamed_error :
  let p := {| fcs := [VInt 1]; gains := [VInt 1; VInt 2];
              sample_rates := [VInt 1]; durations_ms := [VInt 1] |} in
  (run (__init__ p (RadioRef 0)) ∅).1
  = Raise (TypeError "'<' not supported between instances of 'NoneType' and 'int'")
  /\ (run (__init__ p (RadioRef 0)) ∅).1 <> Raise (wrong_number "gain" 1).
Proof. vm_compute. split; [done|discriminate]. Qed.

(** ** The entry point *)

Lemma assemble_recording_id se tid sd rid mr t1 t2 :
  recording_id (assemble se tid sd rid mr t1 t2) = Some rid.
Proof. reflexivity. Qed.

Lemma assemble_annotations_match_data se tid sd rid mr t1 t2 :
  annotations_match_data (assemble se tid sd rid mr t1 t2).
Proof.
  intros a Ha _. simpl in Ha.
  apply elem_of_cons in Ha as [->|Ha]; [done|].
  apply elem_of_cons in Ha as [->|Ha]; [done|].
  by apply elem_of_nil in Ha.
Qed.

Section EntryPointFacts.

Variable World : Type.
Variable test_required_components : World -> result unit * World.
Variable get_datetime_str_now : World -> string * World.
Variable acquire_data : list (string * pyval) -> World -> result MeasurementResult * World.
Variable receivers : Notification -> World -> result unit * World.

Local Abbreviation call :=
  (__call__ World test_required_components get_datetime_str_now acquire_data receivers).
Local Abbreviation step1 := (step World get_datetime_str_now acquire_data receivers).
Local Abbreviation loop se tid sd rid plan :=
  (for_each (enumerate rid plan)
     (fun '(recording_id, measurement_params) =>
        step1 se tid sd recording_id measurement_params)).

(** One iteration, spelled out on the collaborators' answers. *)
Lemma step_run se tid sd rid mp (env : Env World) :
  run (step1 se tid sd rid mp) env =
  let '(t1, w1) := get_datetime_str_now (world env) in
  match acquire_data mp w1 with
  | (Raise e, w2) =>
      (Raise e, {| world := w2; trace := trace env ++ [Acquire mp] |})
  | (Ok mr, w2) =>
      let '(t2, w3) := get_datetime_str_now w2 in
      let n := assemble se tid sd rid mr t1 t2 in
      let '(r, w4) := receivers n w3 in
      (r, {| world := w4; trace := (trace env ++ [Acquire mp]) ++ [Send n] |})
  end.
Proof.
  unfold step, super_acquire_data, send, now, emit, on_world, modify, assemble.
  rewrite !run_bind. cbn [run world trace].
  destruct (get_datetime_str_now (world env)) as [t1 w1].
  rewrite !run_bind. cbn [run world trace].
  destruct (acquire_data mp w1) as [[mr|e] w2]; [|done].
  rewrite !run_bind. cbn [run world trace].
  destruct (get_datetime_str_now w2) as [t2 w3].
  rewrite !run_bind. cbn [run world trace].
  by destruct (receivers _ w3) as [r w4].
Qed.

(** The loop emits a sweep, whatever the collaborators answer. *)
Lemma loop_emits_sweep se tid sd plan rid (env : Env World) :
  exists t, trace (run (loop se tid sd rid plan) env).2 = trace env ++ t
            /\ sweep_from rid plan t.
Proof.
  revert rid env. induction plan as [|mp plan IH]; intros rid env.
  { exists []. split; [by rewrite app_nil_r|constructor]. }
  cbn [enumerate for_each]. rewrite run_bind, step_run.
  destruct (get_datetime_str_now (world env)) as [t1 w1].
  destruct (acquire_data mp w1) as [[mr|e] w2].
  2:{ exists [Acquire mp]. split; [done|constructor]. }
  destruct (get_datetime_str_now w2) as [t2 w3]. cbn zeta.
  destruct (receivers _ w3) as [[[]|e] w4].
  - destruct (IH (rid + 1)
                {| world := w4;
                   trace := (trace env ++ [Acquire mp])
                            ++ [Send (assemble se tid sd rid mr t1 t2)] |})
      as (t & Ht & Hsweep).
    exists (Acquire mp :: Send (assemble se tid sd rid mr t1 t2) :: t).
    split; [|by constructor].
    rewrite Ht. cbn [trace]. by rewrite <- !app_assoc.
  - exists [Acquire mp; Send (assemble se tid sd rid mr t1 t2)].
    split; [cbn [snd trace]; by rewrite <- app_assoc|].
    constructor; [done|constructor].
Qed.

(** Every notification the loop sends has annotations matching its data. *)
Lemma loop_sends_matching_annotations se tid sd plan rid (env : Env World) :
  exists t, trace (run (loop se tid sd rid plan) env).2 = trace env ++ t
            /\ Forall annotations_match_data (sent t).
Proof.
  revert rid env. induction plan as [|mp plan IH]; intros rid env.
  { exists []. split; [by rewrite app_nil_r|constructor]. }
  cbn [enumerate for_each]. rewrite run_bind, step_run.
  destruct (get_datetime_str_now (world env)) as [t1 w1].
  destruct (acquire_data mp w1) as [[mr|e] w2].
  2:{ exists [Acquire mp]. split; [done|constructor]. }
  destruct (get_datetime_str_now w2) as [t2 w3]. cbn zeta.
  destruct (receivers _ w3) as [[[]|e] w4].
  - destruct (IH (rid + 1)
                {| world := w4;
                   trace := (trace env ++ [Acquire mp])
                            ++ [Send (assemble se tid sd rid mr t1 t2)] |})
      as (t & Ht & Hall).
    exists (Acquire mp :: Send (assemble se tid sd rid mr t1 t2) :: t).
    split.
    + rewrite Ht. cbn [trace]. by rewrite <- !app_assoc.
    + cbn [sent]. constructor; [apply assemble_annotations_match_data|done].
  - exists [Acquire mp; Send (assemble se tid sd rid mr t1 t2)].
    split; [cbn [snd trace]; by rewrite <- app_assoc|].
    cbn [sent]. constructor; [apply assemble_annotations_match_data|constructor].
Qed.

(** With collaborators that never fail the loop runs to its end and
    numbers the steps consecutively. *)
Lemma loop_completes se tid sd plan rid (env : Env World) :
  (forall mp w, exists mr, (acquire_data mp w).1 = Ok mr) ->
  (forall n w, (receivers n w).1 = Ok tt) ->
  exists t, (run (loop se tid sd rid plan) env).1 = Ok tt
            /\ trace (run (loop se tid sd rid plan) env).2 = trace env ++ t
            /\ acquired t = plan
            /\ recording_id <$> sent t
               = (fun i => Some (rid + Z.of_nat i)) <$> seq 0 (length plan).
Proof.
  intros Hacq Hrecv. revert rid env. induction plan as [|mp plan IH]; intros rid env.
  { exists []. by rewrite app_nil_r. }
  cbn [enumerate for_each]. rewrite run_bind, step_run.
  destruct (get_datetime_str_now (world env)) as [t1 w1].
  destruct (Hacq mp w1) as [mr Hmr].
  destruct (acquire_data mp w1) as [r w2]. simpl in Hmr. subst r.
  destruct (get_datetime_str_now w2) as [t2 w3]. cbn zeta.
  pose proof (Hrecv (assemble se tid sd rid mr t1 t2) w3) as Hr.
  destruct (receivers _ w3) as [r w4]. simpl in Hr. subst r.
  destruct (IH (rid + 1)
              {| world := w4;
                 trace := (trace env ++ [Acquire mp])
                          ++ [Send (assemble se tid sd rid mr t1 t2)] |})
    as (t & Hok & Ht & Hacqd & Hids).
  exists (Acquire mp :: Send (assemble se tid sd rid mr t1 t2) :: t).
  split; [done|]. split; [rewrite Ht; cbn [trace]; by rewrite <- !app_assoc|].
  split; [cbn [acquired]; by rewrite Hacqd|].
  cbn [sent length seq fmap list_fmap]. rewrite Hids, assemble_recording_id.
  f_equal; [f_equal; lia|].
  rewrite <- fmap_S_seq, <- list_fmap_compose. apply list_fmap_ext.
  intros _ i _. simpl. f_equal. lia.
Qed.

(** What [__call__] does once the components are known to be ready. *)
Lemma call_run self se tid sd (env : Env World) :
  run (call self se tid sd) env =
  match test_required_components (world env) with
  | (Raise e, w1) => (Raise e, {| world := w1; trace := trace env |})
  | (Ok _, w1) =>
      match sorted_measurement_parameters self with
      | Raise e => (Raise e, {| world := w1; trace := trace env |})
      | Ok plan => run (loop se tid sd 1 plan) {| world := w1; trace := trace env |}
      end
  end.
Proof.
  unfold __call__, on_world. rewrite run_bind. cbn [run].
  destruct (test_required_components (world env)) as [[[]|e] w1]; [|done].
  rewrite run_bind, run_lift. by destruct (sorted_measurement_parameters self).
Qed.

(** C6: if the check of the required components raises, [__call__] raises
    the same exception at once: the trace is unchanged (no acquisition was
    requested, no notification sent) and the world is as the check left
    it. *)
Theorem call_not_ready_runs_no_step self se tid sd (env : Env World) e w1 :
  test_required_components (world env) = (Raise e, w1) ->
  run (call self se tid sd) env = (Raise e, {| world := w1; trace := trace env |}).
Proof. intros H. by rewrite call_run, H. Qed.

(** The loop runs a sweep: its outcome, its events and the world it leaves
    are those of [sweep] on the collaborators' answers. *)
Lemma loop_sweeps se tid sd plan rid (env : Env World) :
  exists t r w',
    run (loop se tid sd rid plan) env
    = (r, {| world := w'; trace := trace env ++ t |})
    /\ sweep World get_datetime_str_now acquire_data receivers se tid sd
         rid plan (world env) t r w'.
Proof.
  revert rid env. induction plan as [|mp plan IH]; intros rid env.
  { exists [], (Ok tt), (world env). split; [|constructor].
    destruct env. cbn. by rewrite app_nil_r. }
  cbn [enumerate for_each]. rewrite run_bind, step_run.
  destruct (get_datetime_str_now (world env)) as [t1 w1] eqn:Hnow1.
  destruct (acquire_data mp w1) as [[mr|e] w2] eqn:Hacq.
  2:{ exists [Acquire mp], (Raise e), w2. split; [done|].
      by eapply sweep_acquisition_failed. }
  destruct (get_datetime_str_now w2) as [t2 w3] eqn:Hnow2. cbn zeta.
  destruct (receivers _ w3) as [[[]|e] w4] eqn:Hrecv.
  - destruct (IH (rid + 1)
                {| world := w4;
                   trace := (trace env ++ [Acquire mp])
                            ++ [Send (assemble se tid sd rid mr t1 t2)] |})
      as (t & r & w' & Hrun & Hsweep).
    exists (Acquire mp :: Send (assemble se tid sd rid mr t1 t2) :: t), r, w'.
    split; [|by eapply sweep_step_completed].
    rewrite Hrun. cbn [trace]. by rewrite <- !app_assoc.
  - exists [Acquire mp; Send (assemble se tid sd rid mr t1 t2)], (Raise e), w4.
    split; [by rewrite <- app_assoc|].
    by eapply sweep_receiver_failed.
Qed.

(** The events of a sweep are in the order of [sweep_from]. *)
Lemma sweep_in_order se tid sd rid plan w t r w' :
  sweep World get_datetime_str_now acquire_data receivers se tid sd
    rid plan w t r w' ->
  sweep_from rid plan t.
Proof.
  induction 1; try by constructor.
  constructor; [done|constructor].
Qed.

(** A sweep that ends normally went through the whole plan and notified
    every step once; one that ends with an exception notified the steps
    it completed: all the acquisitions requested, or all but the last. *)
Lemma sweep_outcome se tid sd rid plan w t r w' :
  sweep World get_datetime_str_now acquire_data receivers se tid sd
    rid plan w t r w' ->
  match r with
  | Ok _ => acquired t = plan /\ length (sent t) = length plan
  | Raise _ =>
      exists pre mp rest, plan = pre ++ mp :: rest
        /\ acquired t = pre ++ [mp]
        /\ (length (sent t) = length pre \/ length (sent t) = S (length pre))
  end.
Proof.
  induction 1 as [rid w|rid mp plan w t1 w1 e w2 _ _
                  |rid mp plan w t1 w1 mr w2 t2 w3 e w4 _ _ _ _
                  |rid mp plan w t1 w1 mr w2 t2 w3 w4 t r w' _ _ _ _ _ IH].
  - done.
  - exists [], mp, plan. split; [done|]. split; [done|by left].
  - exists [], mp, plan. split; [done|]. split; [done|by right].
  - destruct r as [[]|e].
    + destruct IH as [Hacq Hlen]. cbn [acquired sent length].
      by rewrite Hacq, Hlen.
    + destruct IH as (pre & mp0 & rest & -> & Hacq & Hsent).
      exists (mp :: pre), mp0, rest. split; [done|].
      cbn [acquired sent length]. rewrite Hacq. split; [done|].
      destruct Hsent as [->| ->]; [by left|by right].
Qed.

(** C7: once the required components are ready, one call runs exactly
    the sweep over the plan that the answers of the device and of the
    receivers determine.  The notification of step i is sent exactly once,
    right after the acquisition of step i was answered and its metadata
    assembled, and before the acquisition of step i+1 is requested, so
    notifications leave in the order the steps complete.  A call that
    returns has notified every step of the plan; a call that raises has
    notified every step it completed: all the acquisitions requested
    before the failure, or all but the failed one. *)
Theorem call_notifies_step_before_next_acquisition self se tid sd (env : Env World)
    plan w1 :
  sorted_measurement_parameters self = Ok plan ->
  test_required_components (world env) = (Ok tt, w1) ->
  exists t r w',
    run (call self se tid sd) env
    = (r, {| world := w'; trace := trace env ++ t |})
    /\ sweep World get_datetime_str_now acquire_data receivers se tid sd
         1 plan w1 t r w'
    /\ sweep_from 1 plan t
    /\ match r with
       | Ok _ => acquired t = plan /\ length (sent t) = length plan
       | Raise _ =>
           exists pre mp rest, plan = pre ++ mp :: rest
             /\ acquired t = pre ++ [mp]
             /\ (length (sent t) = length pre
                 \/ length (sent t) = S (length pre))
       end.
Proof.
  intros Hplan Hready. rewrite call_run, Hplan, Hready.
  destruct (loop_sweeps se tid sd plan 1 {| world := w1; trace := trace env |})
    as (t & r & w' & Hrun & Hsweep).
  exists t, r, w'. split; [done|]. split; [done|].
  split; [by eapply sweep_in_order|by eapply sweep_outcome].
Qed.

(** C3: with components that are ready, a device that answers every
    acquisition and receivers that accept every notification, one call on
    a plan of N steps returns normally, requests the acquisitions of the
    plan in plan order and sends N notifications whose recording
    identifiers are 1, 2, ..., N in that order. *)
Theorem call_numbers_recordings_from_one self se tid sd (env : Env World) plan :
  (forall w, (test_required_components w).1 = Ok tt) ->
  (forall mp w, exists mr, (acquire_data mp w).1 = Ok mr) ->
  (forall n w, (receivers n w).1 = Ok tt) ->
  sorted_measurement_parameters self = Ok plan ->
  exists t, (run (call self se tid sd) env).1 = Ok tt
            /\ trace (run (call self se tid sd) env).2 = trace env ++ t
            /\ acquired t = plan
            /\ length (sent t) = length plan
            /\ recording_id <$> sent t
               = (fun i => Some (Z.of_nat i)) <$> seq 1 (length plan).
Proof.
  intros Hready Hacq Hrecv Hplan. rewrite call_run, Hplan.
  specialize (Hready (world env)).
  destruct (test_required_components (world env)) as [r w1]. simpl in Hready. subst r.
  destruct (loop_completes se tid sd plan 1 {| world := w1; trace := trace env |}
              Hacq Hrecv) as (t & Hok & Ht & Hacqd & Hids).
  exists t. repeat split; try done.
  - apply (f_equal length) in Hids. by rewrite !length_fmap, length_seq in Hids.
  - rewrite Hids, <- fmap_S_seq, <- list_fmap_compose. apply list_fmap_ext.
    intros _ i _. simpl. f_equal. lia.
Qed.

(** C8: in every notification sent by a call, each annotation of type
    SensorAnnotation or CalibrationAnnotation declares a sample count
    equal to the length of the data sent with it. *)
Theorem call_annotation_counts_match_data self se tid sd (env : Env World) t n a :
  trace (run (call self se tid sd) env).2 = trace env ++ t ->
  n ∈ sent t ->
  a ∈ annotations (metadata n) ->
  annotation_type a = "SensorAnnotation"
  \/ annotation_type a = "CalibrationAnnotation" ->
  sample_count a = length (sent_data n).
Proof.
  intros Ht Hn Ha Htype.
  assert (exists t', trace (run (call self se tid sd) env).2 = trace env ++ t'
                     /\ Forall annotations_match_data (sent t')) as (t' & Ht' & Hall).
  { rewrite call_run.
    destruct (test_required_components (world env)) as [[[]|e] w1].
    - destruct (sorted_measurement_parameters self) as [plan|e].
      + apply (loop_sends_matching_annotations se tid sd plan 1
                 {| world := w1; trace := trace env |}).
      + exists []. split; [by rewrite app_nil_r|constructor].
    - exists []. split; [by rewrite app_nil_r|constructor]. }
  rewrite Ht in Ht'. apply app_inv_head in Ht'. subst t'.
  rewrite Forall_forall in Hall. by apply (Hall n Hn a).
Qed.

End EntryPointFacts.

(** ** The description *)

Lemma hoare_bind {S A B} (P : S -> Prop) (Q : A -> S -> Prop) (R : B -> S -> Prop)
    (m : M S A) (f : A -> M S B) :
  hoare P m Q -> (forall a, hoare (Q a) (f a) R) -> hoare P (bind m f) R.
Proof.
  intros Hm Hf s Hs. rewrite run_bind. specialize (Hm s Hs).
  destruct (run m s) as [[a|e] s']; [by apply Hf|done].
Qed.

Lemma hoare_lift {S A} (P : S -> Prop) (r : result A) :
  hoare P (lift r) (fun _ => P).
Proof. intros s Hs. rewrite run_lift. by destruct r. Qed.

Lemma hoare_get {S} (P : S -> Prop) :
  hoare P get (fun a s => a = s /\ P s).
Proof. by intros s Hs. Qed.

Lemma hoare_get_keeps {S} (P : S -> Prop) :
  hoare P get (fun _ => P).
Proof. by intros s Hs. Qed.

Lemma hoare_ret {S A} (P : S -> Prop) (a : A) :
  hoare P (ret a) (fun b s => b = a /\ P s).
Proof. by intros s Hs. Qed.

Lemma hoare_modify {S} (P Q : S -> Prop) (f : S -> S) :
  (forall s, P s -> Q (f s)) -> hoare P (modify f) (fun _ => Q).
Proof. intros H s Hs. by apply H. Qed.

Lemma hoare_weaken {S A} (P : S -> Prop) (Q Q' : A -> S -> Prop) (m : M S A) :
  hoare P m Q -> (forall a s, Q a s -> Q' a s) -> hoare P m Q'.
Proof.
  intros Hm HQ s Hs. specialize (Hm s Hs).
  destruct (run m s) as [[a|e] s']; [by apply HQ|done].
Qed.

Lemma hoare_for_each {S A} (I : S -> Prop) (body : A -> M S unit) (xs : list A) :
  (forall x, hoare I (body x) (fun _ => I)) -> hoare I (for_each xs body) (fun _ => I).
Proof.
  intros Hbody. induction xs as [|x xs IH]; [by intros s Hs|].
  cbn [for_each]. eapply hoare_bind; [apply Hbody|]. intros ?. apply IH.
Qed.

Section DescriptionFacts.

Variable format_2f : float -> string.
Variable float_repr : float -> string.
Variable object_repr : attr -> string.
Variable np_sum : list pyval -> result pyval.

Local Abbreviation defs_of := (description_defs format_2f float_repr np_sum).
Local Abbreviation describe := (description format_2f float_repr object_repr np_sum).

(** An iteration of the loop leaves [acquisition_plan] as it was. *)
Lemma description_step_keeps_plan_text (mp : MeasurementParams) :
  hoare plan_text_empty (description_step format_2f float_repr mp)
        (fun _ => plan_text_empty).
Proof.
  unfold description_step.
  eapply hoare_bind; [apply hoare_lift|]. intros fc.
  eapply hoare_bind; [apply hoare_lift|]. intros sr.
  eapply hoare_bind; [apply hoare_lift|]. intros n.
  by apply hoare_modify.
Qed.

Lemma description_defs_plan_text (self : instance) :
  hoare (fun _ => True) (defs_of self) (fun defs _ => defs_acquisition_plan defs = "").
Proof.
  unfold description_defs.
  eapply hoare_bind; [apply (hoare_modify _ plan_text_empty); by intros|]. intros ?.
  eapply hoare_bind; [apply (hoare_modify _ plan_text_empty); by intros|]. intros ?.
  eapply hoare_bind; [apply hoare_lift|]. intros l.
  eapply hoare_bind; [apply hoare_for_each, description_step_keeps_plan_text|]. intros ?.
  do 8 (eapply hoare_bind; [apply hoare_lift|]; intros ?).
  eapply hoare_bind; [apply hoare_get_keeps|]. intros fr0.
  do 4 (eapply hoare_bind; [apply hoare_lift|]; intros ?).
  eapply hoare_bind; [apply hoare_get|]. intros fr.
  intros s [-> Hs]. by cbn.
Qed.

(** C10: whenever [description] gets as far as building [defs], the
    [acquisition_plan] substituted into the docstring is the empty string,
    whatever the plan: the formatted lines are never accumulated. *)
Theorem description_acquisition_plan_is_empty (self : instance) (fr : Frame) (defs : Defs) :
  (run (defs_of self) fr).1 = Ok defs -> defs_acquisition_plan defs = "".
Proof.
  intros H. pose proof (description_defs_plan_text self fr I) as Hh.
  destruct (run (defs_of self) fr) as [[d|e] s]; simpl in H; [|done].
  by injection H as ->.
Qed.

Lemma description_without_list (self : instance) :
  self !! "measurement_params_list" = None ->
  describe self = Raise (AttributeError "measurement_params_list").
Proof.
  intros H. unfold description, description_defs.
  rewrite !run_bind. cbn [run modify].
  unfold measurement_params_list, getattr. by rewrite H.
Qed.

(** C9: for an instance built by the constructor on a class that does not
    itself provide [measurement_params_list], reading [description] raises
    [AttributeError] for that attribute, however the constructor ended. *)
Theorem description_raises_attribute_error (p : Parameters) (radio : Radio)
    (inherited : instance) :
  inherited !! "measurement_params_list" = None ->
  describe (run (__init__ p radio) inherited).2
  = Raise (AttributeError "measurement_params_list").
Proof.
  intros H. apply description_without_list.
  destruct (init_outcome p radio inherited) as [->|[e ->]]; simpl;
    by rewrite !lookup_insert_ne.
Qed.

(** C5 (fails on the code): for the single step with [duration_ms = 100]
    and [sample_rate = 1_000_000] the loop of [description] counts
    [int(100 / 1e6 * 1_000_000) = 100] samples, not 100_000; that is the
    [total_samples] of [defs] whenever [numpy.sum] returns. *)
Theorem description_single_step_counts_100_samples :
  let mp := {| center_frequency := VFloat 2400e6; gain := VInt 10;
               sample_rate := VInt 1000000; duration_ms := VInt 100 |} in
  let self : instance :=
    <["measurement_params_list" := AMeasurementParams [mp]]>
      (<["name" := AStr "acq"]> (<["num_center_frequencies" := ALen 1]> ∅)) in
  run (for_each [mp] (description_step format_2f float_repr))
      {| acquisition_plan := ""; total_samples := 0 |}
  = (Ok tt, {| acquisition_plan := ""; total_samples := 100 |})
  /\ result_map defs_total_samples (run (defs_of self) initial_frame).1
     = result_map (fun _ => 100) (np_sum [VInt 100]).
Proof.
  split; [by vm_compute|].
  vm_compute. by destruct (np_sum _).
Qed.

End DescriptionFacts.

(** ** Concrete runs *)

Lemma call_numbers_recordings_from_one_witness :
  exists t,
    (run (__call__ nat mock_ready mock_clock mock_acquire mock_receivers
            mock_action [] 7 []) mock_env).1 = Ok tt
    /\ trace (run (__call__ nat mock_ready mock_clock mock_acquire mock_receivers
                     mock_action [] 7 []) mock_env).2 = trace mock_env ++ t
    /\ acquired t = mock_plan
    /\ length (sent t) = length mock_plan
    /\ recording_id <$> sent t
       = (fun i => Some (Z.of_nat i)) <$> seq 1 (length mock_plan).
Proof.
  apply (call_numbers_recordings_from_one nat mock_ready mock_clock mock_acquire
           mock_receivers mock_action [] 7 [] mock_env mock_plan).
  - intros w. reflexivity.
  - intros mp w. eexists. reflexivity.
  - intros n w. reflexivity.
  - vm_compute. reflexivity.
Defined.

Lemma call_not_ready_runs_no_step_witness :
  run (__call__ nat mock_not_ready mock_clock mock_acquire mock_receivers
         mock_action [] 7 []) mock_env
  = (Raise (ExternalError "signal analyzer is not available"),
     {| world := 0%nat; trace := trace mock_env |}).
Proof.
  apply (call_not_ready_runs_no_step nat mock_not_ready mock_clock mock_acquire
           mock_receivers mock_action [] 7 [] mock_env).
  reflexivity.
Defined.

Lemma call_notifies_step_before_next_acquisition_witness :
  exists t r w',
    run (__call__ nat mock_ready mock_clock mock_acquire_overload mock_receivers
           mock_action [] 7 []) mock_env
    = (r, {| world := w'; trace := trace mock_env ++ t |})
    /\ sweep nat mock_clock mock_acquire_overload mock_receivers [] 7 []
         1 mock_plan 0%nat t r w'
    /\ sweep_from 1 mock_plan t
    /\ match r with
       | Ok _ => acquired t = mock_plan /\ length (sent t) = length mock_plan
       | Raise _ =>
           exists pre mp rest, mock_plan = pre ++ mp :: rest
             /\ acquired t = pre ++ [mp]
             /\ (length (sent t) = length pre
                 \/ length (sent t) = S (length pre))
       end.
Proof.
  apply (call_notifies_step_before_next_acquisition nat mock_ready mock_clock
           mock_acquire_overload mock_receivers mock_action [] 7 [] mock_env
           mock_plan 0%nat).
  - vm_compute. reflexivity.
  - reflexivity.
Defined.

(** The sweep of the two-step plan on a device that fails on the second
    step: the first step is acquired and notified as recording 1, the
    second is acquired, and the device's exception ends the call. *)
Example call_partial_sweep_events :
  let r := run (__call__ nat mock_ready mock_clock mock_acquire_overload
                  mock_receivers mock_action [] 7 []) mock_env in
  r.1 = Raise (ExternalError "overload")
  /\ acquired (trace r.2) = mock_plan
  /\ recording_id <$> sent (trace r.2) = [Some 1]
  /\ (fun e => match e with Acquire _ => true | Send _ => false end) <$> trace r.2
     = [true; false; true].
Proof. vm_compute. done. Qed.

Lemma call_annotation_counts_match_data_witness :
  let mr := {| data := [(1%float, 0%float); (0%float, 1%float)];
               capture_time := "1";
               tuned_frequency := VFloat 2400e6;
               tuned_gain := VInt 10;
               tuned_sample_rate := VFloat 1e6 |} in
  let n := assemble [] 7 [] 1 mr "0" "1" in
  let a := {| annotation_type := "SensorAnnotation"; sample_start := 0;
              sample_count := 2 |} in
  sample_count a = length (sent_data n).
Proof.
  intros mr n a.
  apply (call_annotation_counts_match_data nat mock_ready mock_clock mock_acquire
           mock_receivers mock_action [] 7 [] mock_env
           (trace (run (__call__ nat mock_ready mock_clock mock_acquire mock_receivers
                          mock_action [] 7 []) mock_env).2) n a).
  - reflexivity.
  - vm_compute. left.
  - vm_compute. left.
  - left. reflexivity.
Defined.

Lemma description_raises_attribute_error_witness :
  description mock_format mock_format mock_repr mock_sum
    (run (__init__ {| fcs := [VFloat 2400e6]; gains := [VInt 10];
                      sample_rates := [VFloat 1e6]; durations_ms := [VInt 10] |}
            (RadioRef 0)) ∅).2
  = Raise (AttributeError "measurement_params_list").
Proof.
  apply (description_raises_attribute_error mock_format mock_format mock_repr mock_sum).
  reflexivity.
Defined.

Lemma description_acquisition_plan_is_empty_witness :
  exists defs,
    (run (description_defs mock_format mock_format mock_sum mock_described)
         initial_frame).1 = Ok defs
    /\ defs_acquisition_plan defs = "".
Proof.
  eexists. split.
  - vm_compute. reflexivity.
  - eapply (description_acquisition_plan_is_empty mock_format mock_format mock_sum
              mock_described initial_frame).
    vm_compute. reflexivity.
Defined.

(** * Further properties *)

(** ** Failures of the sort *)

Lemma py_lt_raise (a b : pyval) (e : exn) :
  py_lt a b = Raise e -> e = unorderable a b /\ (a = VNone \/ b = VNone).
Proof. destruct a, b; simpl; intros [= <-]; auto. Qed.

Lemma py_lt_ok (a b : pyval) (c : bool) :
  py_lt a b = Ok c -> numeric a /\ numeric b.
Proof. by destruct a, b. Qed.

Lemma sort_insert_raise {A} (x : pyval * A) (s : list (pyval * A)) (e : exn) :
  sort_insert x s = Raise e -> compares_none e.
Proof.
  induction s as [|y s IH]; simpl; [done|].
  destruct (py_lt y.1 x.1) as [[]|e'] eqn:E; simpl.
  - unfold result_map. destruct (sort_insert x s); simpl; [done|].
    intros [= <-]. by apply IH.
  - done.
  - intros [= <-]. apply py_lt_raise in E as [-> H]. by eexists _, _.
Qed.

Lemma sort_decorated_raise {A} (l : list (pyval * A)) (e : exn) :
  sort_decorated l = Raise e -> compares_none e.
Proof.
  induction l as [|x l IH]; simpl; [done|].
  destruct (sort_decorated l) as [s|e']; simpl.
  - apply sort_insert_raise.
  - intros [= <-]. by apply IH.
Qed.

(** Two or more items are only sorted when every key is a number. *)
Lemma sort_decorated_ok_numeric {A} (l s : list (pyval * A)) :
  sort_decorated l = Ok s -> (2 <= length l)%nat ->
  Forall (fun y => numeric y.1) l.
Proof.
  revert s. induction l as [|x l IH]; intros s; simpl; [lia|].
  destruct (sort_decorated l) as [s'|] eqn:Hs'; simpl; [|done].
  intros Hins Hlen.
  pose proof (sort_decorated_perm _ _ Hs') as Hperm.
  destruct s' as [|y s''].
  { apply Permutation_nil_l in Hperm. subst l. simpl in Hlen. lia. }
  simpl in Hins. destruct (py_lt y.1 x.1) as [c|] eqn:Hc; simpl in Hins; [|done].
  apply py_lt_ok in Hc as [Hy Hx]. constructor; [done|].
  destruct l as [|y0 [|y1 l]].
  - symmetry in Hperm. by apply Permutation_nil_cons in Hperm.
  - apply Permutation_singleton_r in Hperm. injection Hperm as -> ->.
    by constructor.
  - apply (IH _ eq_refl). simpl. lia.
Qed.

(** ** Failures of the constructor *)

Lemma zip_longest_row (a b c d row : list pyval) :
  row ∈ zip_longest [a; b; c; d] ->
  exists i, (i < max_list (length <$> [a; b; c; d]))%nat
            /\ row = [default VNone (a !! i); default VNone (b !! i);
                      default VNone (c !! i); default VNone (d !! i)].
Proof.
  intros (i & -> & Hi%elem_of_seq)%list_elem_of_fmap. exists i. split; [lia|done].
Qed.

Lemma index_none_found (t : list pyval) :
  contains_none t = true -> exists i, index_none t = Ok i /\ (i < length t)%nat.
Proof.
  unfold contains_none. induction t as [|v t IH]; simpl; [done|].
  destruct (is_none v); simpl.
  - intros _. exists 0%nat. split; [done|lia].
  - intros (i & -> & Hi)%IH. exists (S i). split; [done|lia].
Qed.

Lemma check_params_raise_kind (n : nat) (row : list pyval) (s : instance) (e : exn) :
  length row = 4%nat -> (run (check_params n row) s).1 = Raise e ->
  exists name, name ∈ parameter_names /\ e = wrong_number name n.
Proof.
  intros Hlen. unfold check_params.
  destruct (contains_none row) eqn:Hc; [|done].
  destruct (index_none_found row Hc) as (i & Hi & Hlt).
  rewrite run_bind, run_lift, Hi, run_bind, run_lift.
  rewrite Hlen in Hlt.
  destruct (lookup_lt_is_Some_2 parameter_names i Hlt) as [name Hname].
  rewrite Hname. simpl. intros [= <-]. exists name. split; [|done].
  by eapply list_elem_of_lookup_2.
Qed.

Lemma for_each_raise_from {S A} (body : A -> M S unit) (xs : list A) (s : S) (e : exn) :
  (run (for_each xs body) s).1 = Raise e ->
  exists x s0, x ∈ xs /\ (run (body x) s0).1 = Raise e.
Proof.
  revert s. induction xs as [|x xs IH]; intros s; [done|].
  cbn [for_each]. rewrite run_bind.
  destruct (run (body x) s) as [[[]|e'] s1] eqn:E.
  - intros (y & s0 & Hy & H)%IH. exists y, s0. split; [by right|done].
  - simpl. intros [= <-]. exists x, s. split; [by left|]. by rewrite E.
Qed.

Lemma rows_have_keys (p : Parameters) :
  Forall (fun row => length row = 4%nat /\ exists k, sortFrequency row = Ok k)
    (zip_longest [fcs p; gains p; sample_rates p; durations_ms p]).
Proof.
  apply Forall_forall. intros row (i & _ & ->)%zip_longest_row.
  split; [done|]. by eexists.
Qed.

Lemma decorate_total {A} (key : A -> result pyval) (l : list A) :
  Forall (fun x => exists k, key x = Ok k) l ->
  exists d, map_result (fun x => let? k := key x in Ok (k, x)) l = Ok d.
Proof.
  induction 1 as [|x l [k Hk] _ [d IH]]; simpl; [by eexists|].
  rewrite Hk. simpl. rewrite IH. simpl. by eexists.
Qed.

Lemma list_sort_raise {A} (key : A -> result pyval) (l : list A) (e : exn) :
  Forall (fun x => exists k, key x = Ok k) l ->
  list_sort key l = Raise e -> compares_none e.
Proof.
  intros Hkeys. unfold list_sort. destruct (decorate_total key l Hkeys) as [d ->].
  simpl. destruct (sort_decorated d) as [s|e'] eqn:Hs; simpl; [done|].
  intros [= <-]. by eapply sort_decorated_raise.
Qed.

(** Every exception the constructor raises is a [TypeError]: that of a
    comparison with [None] in the sort, or the one of the validation loop,
    naming one of the four fields and the length of [fcs]. *)
Theorem init_raises_only_type_errors (p : Parameters) (radio : Radio)
    (inherited : instance) (e : exn) :
  (run (__init__ p radio) inherited).1 = Raise e ->
  compares_none e
  \/ exists name, name ∈ parameter_names /\ e = wrong_number name (length (fcs p)).
Proof.
  pose proof (rows_have_keys p) as Hrows. unfold __init__.
  rewrite run_bind. cbn [setattr modify run]. rewrite run_bind. cbn [setattr modify run].
  rewrite run_bind, run_lift.
  destruct (list_sort _ _) as [sorted|e'] eqn:Hsorted.
  - rewrite run_bind.
    destruct (run (for_each sorted _) _) as [[[]|e'] s3] eqn:Hloop; [done|].
    simpl. intros [= <-]. right.
    apply (f_equal fst) in Hloop. simpl in Hloop.
    apply for_each_raise_from in Hloop as (row & s0 & Hrow & Hraise).
    rewrite (list_sort_perm _ _ _ Hsorted) in Hrow.
    rewrite Forall_forall in Hrows. destruct (Hrows row Hrow) as [Hlen _].
    by eapply check_params_raise_kind.
  - simpl. intros [= <-]. left. eapply list_sort_raise; [|done].
    eapply Forall_impl; [done|]. by intros row [_ H].
Qed.

(** With a sequence longer than [fcs] and two or more tuples to sort, the
    constructor fails in the sort, on a comparison with the [None] that
    pads [fcs]: the validation loop is not reached. *)
Theorem init_longer_sequence_fails_in_sort (p : Parameters) (radio : Radio)
    (inherited : instance) :
  (length (fcs p) < longest p)%nat -> (2 <= longest p)%nat ->
  exists e, compares_none e /\ (run (__init__ p radio) inherited).1 = Raise e.
Proof.
  intros Hshort Htwo. unfold longest in *.
  set (ls := [fcs p; gains p; sample_rates p; durations_ms p]) in *.
  set (n := max_list (length <$> ls)) in *.
  set (row := (fun l : list pyval => default VNone (l !! (n - 1)%nat)) <$> ls).
  assert (row ∈ zip_longest ls) as Hrow.
  { apply list_elem_of_fmap. exists (n - 1)%nat. split; [done|].
    apply elem_of_seq. fold n. lia. }
  assert (sortFrequency row = Ok VNone) as Hkey.
  { unfold sortFrequency. subst row ls. simpl.
    rewrite lookup_ge_None_2; [done|lia]. }
  assert (length (zip_longest ls) = n) as Hlen.
  { unfold zip_longest. by rewrite length_fmap, length_seq. }
  pose proof (rows_have_keys p) as Hkeys. fold ls in Hkeys.
  assert (exists e, list_sort sortFrequency (zip_longest ls) = Raise e) as [e He].
  { unfold list_sort.
    destruct (decorate_total sortFrequency (zip_longest ls)) as [d Hd].
    { eapply Forall_impl; [done|]. by intros r [_ H]. }
    rewrite Hd. simpl.
    destruct (sort_decorated d) as [s|e] eqn:Hs; simpl; [|by eexists].
    apply map_result_decorate in Hd as [Hsnd Hdk].
    assert (length d = n) as Hdn by (by rewrite <- Hlen, <- Hsnd, length_fmap).
    pose proof (sort_decorated_ok_numeric d s Hs ltac:(lia)) as Hnum.
    rewrite <- Hsnd in Hrow. apply list_elem_of_fmap in Hrow as (y & Hy & Hyd).
    rewrite Forall_forall in Hnum, Hdk.
    specialize (Hnum y Hyd). specialize (Hdk y Hyd).
    rewrite <- Hy, Hkey in Hdk. injection Hdk as Hdk. by rewrite <- Hdk in Hnum. }
  exists e. split.
  - eapply list_sort_raise; [|done]. eapply Forall_impl; [done|]. by intros r [_ H].
  - unfold __init__.
    rewrite run_bind. cbn [setattr modify run]. rewrite run_bind. cbn [setattr modify run].
    rewrite run_bind, run_lift. fold ls. by rewrite He.
Qed.

(** Given sequences without [None], the constructor returns normally
    exactly when the four sequences have the same length. *)
Theorem init_returns_iff_equal_lengths (p : Parameters) (radio : Radio)
    (inherited : instance) :
  all_numeric p ->
  (run (__init__ p radio) inherited).1 = Ok tt <-> equal_lengths p.
Proof.
  intros Hnum. split; [|intros Hlen; by apply init_accepts_equal_lengths].
  intros Hok.
  assert (Decision (equal_lengths p)) as [Hlen|Hdiff]
    by (unfold equal_lengths; apply _); [done|].
  destruct (init_rejects_unequal_lengths p radio inherited Hdiff) as [e He].
  by rewrite Hok in He.
Qed.

(** The instance the constructor leaves behind: [parameters] and an empty
    [sorted_measurement_parameters] in every case, [radio] and
    [num_center_frequencies] (the length of [fcs]) only when it returns;
    every other attribute is as inherited. *)
Theorem init_final_instance (p : Parameters) (radio : Radio) (inherited : instance) :
  (run (__init__ p radio) inherited).2 =
  let assigned := <["sorted_measurement_parameters" := ADicts []]>
                    (<["parameters" := AParameters p]> inherited) in
  match (run (__init__ p radio) inherited).1 with
  | Ok _ => <["num_center_frequencies" := ALen (length (fcs p))]>
              (<["radio" := ARadio radio]> assigned)
  | Raise _ => assigned
  end.
Proof. by destruct (init_outcome p radio inherited) as [->|[e ->]]. Qed.

Lemma init_plan_read (p : Parameters) (radio : Radio) (inherited : instance) :
  sorted_measurement_parameters (run (__init__ p radio) inherited).2 = Ok [].
Proof.
  unfold sorted_measurement_parameters, getattr.
  destruct (init_outcome p radio inherited) as [->|[e ->]]; simpl.
  - rewrite !lookup_insert_ne by done. by rewrite lookup_insert_eq.
  - by rewrite lookup_insert_eq.
Qed.

(** An instance that went through the constructor is never a
    multi-recording action, however many steps were asked for. *)
Theorem constructed_is_not_multirecording (p : Parameters) (radio : Radio)
    (inherited : instance) :
  is_multirecording (run (__init__ p radio) inherited).2 = Ok false.
Proof.
  unfold is_multirecording, getattr.
  destruct (init_outcome p radio inherited) as [->|[e ->]]; simpl.
  - rewrite !lookup_insert_ne by done. by rewrite lookup_insert_eq.
  - by rewrite lookup_insert_eq.
Qed.

Section EntryPointOnConstructed.

Variable World : Type.
Variable test_required_components : World -> result unit * World.
Variable get_datetime_str_now : World -> string * World.
Variable acquire_data : list (string * pyval) -> World -> result MeasurementResult * World.
Variable receivers : Notification -> World -> result unit * World.

(** Calling an instance that went through the constructor only checks the
    required components: whatever steps were asked for, no acquisition is
    requested and no notification is sent. *)
Theorem constructed_call_runs_no_step (p : Parameters) (radio : Radio)
    (inherited : instance) se tid sd (env : Env World) :
  run (__call__ World test_required_components get_datetime_str_now acquire_data
         receivers (run (__init__ p radio) inherited).2 se tid sd) env
  = let '(r, w1) := test_required_components (world env) in
    (r, {| world := w1; trace := trace env |}).
Proof.
  rewrite call_run, init_plan_read.
  by destruct (test_required_components (world env)) as [[[]|e] w1].
Qed.

End EntryPointOnConstructed.

(** ** The sweep under failing collaborators *)

Section EntryPointSweep.

Variable World : Type.
Variable test_required_components : World -> result unit * World.
Variable get_datetime_str_now : World -> string * World.
Variable acquire_data : list (string * pyval) -> World -> result MeasurementResult * World.
Variable receivers : Notification -> World -> result unit * World.

Local Abbreviation call :=
  (__call__ World test_required_components get_datetime_str_now acquire_data receivers).
Local Abbreviation step1 := (step World get_datetime_str_now acquire_data receivers).
Local Abbreviation loop se tid sd rid plan :=
  (for_each (enumerate rid plan)
     (fun '(recording_id, measurement_params) =>
        step1 se tid sd recording_id measurement_params)).

Lemma loop_acquires_prefix se tid sd plan rid (env : Env World) :
  exists t, trace (run (loop se tid sd rid plan) env).2 = trace env ++ t
            /\ acquired t `prefix_of` plan
            /\ (length (sent t) <= length (acquired t) <= length (sent t) + 1)%nat
            /\ Forall (fun n => task_id n = tid) (sent t).
Proof.
  revert rid env. induction plan as [|mp plan IH]; intros rid env.
  { exists []. rewrite app_nil_r. split; [done|]. split; [by exists []|].
    split; [simpl; lia|constructor]. }
  cbn [enumerate for_each]. rewrite run_bind, step_run.
  destruct (get_datetime_str_now (world env)) as [t1 w1].
  destruct (acquire_data mp w1) as [[mr|e] w2].
  2:{ exists [Acquire mp]. split; [done|]. split; [by exists plan|].
      split; [simpl; lia|constructor]. }
  destruct (get_datetime_str_now w2) as [t2 w3]. cbn zeta.
  destruct (receivers _ w3) as [[[]|e] w4].
  - destruct (IH (rid + 1)
                {| world := w4;
                   trace := (trace env ++ [Acquire mp])
                            ++ [Send (assemble se tid sd rid mr t1 t2)] |})
      as (t & Ht & Hpre & Hlen & Htask).
    exists (Acquire mp :: Send (assemble se tid sd rid mr t1 t2) :: t).
    split; [rewrite Ht; cbn [trace]; by rewrite <- !app_assoc|].
    split; [cbn [acquired]; by apply prefix_cons|].
    split; [cbn [sent acquired length]; lia|].
    cbn [sent]. by constructor.
  - exists [Acquire mp; Send (assemble se tid sd rid mr t1 t2)].
    split; [cbn [snd trace]; by rewrite <- app_assoc|].
    split; [by exists plan|]. split; [simpl; lia|].
    cbn [sent]. by constructor.
Qed.

(** Whatever the collaborators answer, one call requests the acquisitions
    of an initial part of the plan, in plan order and nothing else; the
    notifications sent are as many as the acquisitions, or one fewer; and
    each notification carries the task identifier of the call. *)
Theorem call_acquires_prefix_of_plan self se tid sd (env : Env World) plan :
  sorted_measurement_parameters self = Ok plan ->
  exists t, trace (run (call self se tid sd) env).2 = trace env ++ t
            /\ acquired t `prefix_of` plan
            /\ (length (sent t) <= length (acquired t) <= length (sent t) + 1)%nat
            /\ Forall (fun n => task_id n = tid) (sent t).
Proof.
  intros Hplan. rewrite call_run, Hplan.
  destruct (test_required_components (world env)) as [[[]|e] w1].
  - apply (loop_acquires_prefix se tid sd plan 1 {| world := w1; trace := trace env |}).
  - exists []. rewrite app_nil_r. split; [done|]. split; [by exists plan|].
    split; [simpl; lia|constructor].
Qed.

Lemma loop_aborts se tid sd pre mp post e rid (env : Env World) :
  (forall mp0 w, mp0 ∈ pre -> exists mr, (acquire_data mp0 w).1 = Ok mr) ->
  (forall w, (acquire_data mp w).1 = Raise e) ->
  (forall n w, (receivers n w).1 = Ok tt) ->
  exists t, (run (loop se tid sd rid (pre ++ mp :: post)) env).1 = Raise e
            /\ trace (run (loop se tid sd rid (pre ++ mp :: post)) env).2
               = trace env ++ t
            /\ acquired t = pre ++ [mp]
            /\ length (sent t) = length pre.
Proof.
  intros Hpre Hfail Hrecv. revert rid env.
  induction pre as [|mp0 pre IH]; intros rid env.
  - cbn [app enumerate for_each]. rewrite run_bind, step_run.
    destruct (get_datetime_str_now (world env)) as [t1 w1].
    specialize (Hfail w1). destruct (acquire_data mp w1) as [r w2].
    simpl in Hfail. subst r. by exists [Acquire mp].
  - cbn [app enumerate for_each]. rewrite run_bind, step_run.
    destruct (get_datetime_str_now (world env)) as [t1 w1].
    destruct (Hpre mp0 w1 ltac:(by left)) as [mr Hmr].
    destruct (acquire_data mp0 w1) as [r w2]. simpl in Hmr. subst r.
    destruct (get_datetime_str_now w2) as [t2 w3]. cbn zeta.
    pose proof (Hrecv (assemble se tid sd rid mr t1 t2) w3) as Hr.
    destruct (receivers _ w3) as [r w4]. simpl in Hr. subst r.
    destruct (IH ltac:(intros ? ? ?; apply Hpre; by right) (rid + 1)
                {| world := w4;
                   trace := (trace env ++ [Acquire mp0])
                            ++ [Send (assemble se tid sd rid mr t1 t2)] |})
      as (t & Hres & Ht & Hacq & Hsent).
    exists (Acquire mp0 :: Send (assemble se tid sd rid mr t1 t2) :: t).
    repeat split; [done| |cbn [acquired]; by rewrite Hacq|cbn [sent length]; by rewrite Hsent].
    rewrite Ht. cbn [trace]. by rewrite <- !app_assoc.
Qed.

(** When the device fails on a step of the plan, having answered the
    steps before it, the call raises the device's exception: that step is
    the last acquisition requested, the steps before it have been
    notified, and the steps after it are never started. *)
Theorem call_aborts_on_failed_acquisition self se tid sd (env : Env World)
    pre mp post e :
  (forall w, (test_required_components w).1 = Ok tt) ->
  (forall mp0 w, mp0 ∈ pre -> exists mr, (acquire_data mp0 w).1 = Ok mr) ->
  (forall w, (acquire_data mp w).1 = Raise e) ->
  (forall n w, (receivers n w).1 = Ok tt) ->
  sorted_measurement_parameters self = Ok (pre ++ mp :: post) ->
  exists t, (run (call self se tid sd) env).1 = Raise e
            /\ trace (run (call self se tid sd) env).2 = trace env ++ t
            /\ acquired t = pre ++ [mp]
            /\ length (sent t) = length pre.
Proof.
  intros Hready Hpre Hfail Hrecv Hplan. rewrite call_run, Hplan.
  specialize (Hready (world env)).
  destruct (test_required_components (world env)) as [r w1]. simpl in Hready. subst r.
  apply (loop_aborts se tid sd pre mp post e 1 {| world := w1; trace := trace env |}
           Hpre Hfail Hrecv).
Qed.

End EntryPointSweep.

(** ** The statistics of the description *)

Lemma hoare_lift_value {S A} (P : S -> Prop) (r : result A) :
  hoare P (lift r) (fun a s => r = Ok a /\ P s).
Proof. intros s Hs. rewrite run_lift. by destruct r. Qed.

Lemma hoare_pure {S A} (R : Prop) (P : S -> Prop) (m : M S A) (Q : A -> S -> Prop) :
  (R -> hoare P m Q) -> hoare (fun s => R /\ P s) m Q.
Proof. intros H s [HR Hs]. by apply H. Qed.

Lemma hoare_exists {S A X} (P : X -> S -> Prop) (m : M S A) (Q : A -> S -> Prop) :
  (forall x, hoare (P x) m Q) -> hoare (fun s => exists x, P x s) m Q.
Proof. intros H s [x Hs]. by apply (H x). Qed.

Section DescriptionStatistics.

Variable format_2f : float -> string.
Variable float_repr : float -> string.
Variable object_repr : attr -> string.
Variable np_sum : list pyval -> result pyval.

Local Abbreviation defs_of := (description_defs format_2f float_repr np_sum).
Local Abbreviation describe := (description format_2f float_repr object_repr np_sum).

Lemma description_step_total (mp : MeasurementParams) (k : Z) :
  hoare (fun fr => total_samples fr = k)
        (description_step format_2f float_repr mp)
        (fun _ fr => exists n, step_samples mp = Ok n /\ total_samples fr = k + n).
Proof.
  intros fr Hfr. unfold description_step.
  rewrite run_bind, run_lift. destruct (py_div_float (center_frequency mp) 1e6); [|done].
  rewrite run_bind, run_lift. destruct (py_div_float (sample_rate mp) 1e6); [|done].
  rewrite run_bind, run_lift. fold (step_samples mp).
  destruct (step_samples mp) as [n|]; [|done].
  cbn. exists n. split; [done|]. by rewrite Hfr.
Qed.

Lemma description_loop_total (l : list MeasurementParams) (k : Z) :
  hoare (fun fr => total_samples fr = k)
        (for_each l (description_step format_2f float_repr))
        (fun _ fr => exists ns, map_result step_samples l = Ok ns
                                /\ total_samples fr = k + sum_Z ns).
Proof.
  revert k. induction l as [|mp l IH]; intros k.
  { intros fr Hfr. cbn. exists []. split; [done|]. simpl. lia. }
  cbn [for_each]. eapply hoare_bind; [apply description_step_total|].
  intros ? fr (n & Hn & Hfr).
  pose proof (IH (k + n) fr Hfr) as H.
  destruct (run (for_each l _) fr) as [[[]|e] fr']; [|done].
  destruct H as (ns & Hns & Hfr'). exists (n :: ns). split.
  - cbn [map_result]. by rewrite Hn, Hns.
  - rewrite Hfr'. simpl. lia.
Qed.

Lemma description_defs_statistics (self : instance) :
  hoare (fun _ => True) (defs_of self)
    (fun defs _ =>
       exists l ns, measurement_params_list self = Ok l
                    /\ map_result step_samples l = Ok ns
                    /\ defs_total_samples defs = sum_Z ns
                    /\ py_div_float (VInt (sum_Z ns * 8)) 1e6
                       = Ok (defs_filesize_mb defs)).
Proof.
  unfold description_defs.
  eapply hoare_bind; [apply (hoare_modify _ (fun _ => True)); by intros|]. intros ?.
  eapply hoare_bind;
    [apply (hoare_modify _ (fun fr => total_samples fr = 0)); by intros|]. intros ?.
  eapply hoare_bind; [apply hoare_lift_value|]. intros l.
  apply hoare_pure. intros Hl.
  eapply hoare_bind; [apply description_loop_total|]. intros ?.
  apply hoare_exists. intros ns. apply hoare_pure. intros Hns.
  do 8 (eapply hoare_bind; [apply hoare_lift|]; intros ?).
  eapply hoare_bind; [apply hoare_get|]. intros fr0.
  eapply hoare_bind; [apply hoare_lift_value|]. intros filesize_mb.
  apply hoare_pure. intros Hsize.
  do 3 (eapply hoare_bind; [apply hoare_lift|]; intros ?).
  eapply hoare_bind; [apply hoare_get|]. intros fr.
  intros s (-> & -> & Hs). cbn.
  exists l, ns. rewrite Hs in Hsize. by rewrite Hs.
Qed.

(** The [total_samples] put into the docstring is the sum over the steps
    of [int(duration_ms / 1e6 * sample_rate)], and [filesize_mb] is that
    sum times 8, divided by [1e6]. *)
Theorem description_total_samples_is_sum (self : instance) (fr : Frame) (defs : Defs) :
  (run (defs_of self) fr).1 = Ok defs ->
  exists l ns, measurement_params_list self = Ok l
               /\ map_result step_samples l = Ok ns
               /\ defs_total_samples defs = sum_Z ns
               /\ py_div_float (VInt (sum_Z ns * 8)) 1e6 = Ok (defs_filesize_mb defs).
Proof.
  intros H. pose proof (description_defs_statistics self fr I) as Hh.
  destruct (run (defs_of self) fr) as [[d|e] s]; simpl in H; [|done].
  by injection H as ->.
Qed.

(** With a [measurement_params_list] that has no element the loop is
    skipped and reading the first element raises [IndexError]: an empty
    plan has no description. *)
Theorem description_of_empty_list_raises (self : instance) :
  measurement_params_list self = Ok [] -> describe self = Raise IndexError.
Proof.
  intros H. unfold description, description_defs.
  rewrite !run_bind. cbn [run modify lift]. rewrite H. by cbn.
Qed.

End DescriptionStatistics.

(** ** The order produced by the sort *)

Section SortByIntegerKey.

Context {A : Type}.
Variable k : A -> Z.

Local Abbreviation keyed := (fun y : pyval * A => y.1 = VInt (k y.2)).
Local Abbreviation by_key := (fun a b : pyval * A => k a.2 <= k b.2).
Local Abbreviation with_key z := (fun y : pyval * A => k y.2 =? z).

Lemma sort_insert_int_keys (x : pyval * A) (s : list (pyval * A)) :
  keyed x -> Forall keyed s -> StronglySorted by_key s ->
  exists s', sort_insert x s = Ok s'
             /\ s' ≡ₚ x :: s
             /\ StronglySorted by_key s'
             /\ forall z, List.filter (with_key z) s' = List.filter (with_key z) (x :: s).
Proof.
  intros Hx. induction s as [|y s IH]; intros Hs Hsorted.
  { exists [x]. split; [done|]. split; [done|]. split; [|done].
    repeat constructor. }
  apply Forall_cons in Hs as [Hy Hs].
  apply StronglySorted_inv in Hsorted as [Hsorted Hall].
  cbn [sort_insert]. rewrite Hy, Hx. cbn [py_lt result_bind].
  destruct (Z.ltb_spec (k y.2) (k x.2)) as [Hlt|Hge].
  - destruct (IH Hs Hsorted) as (s' & -> & Hperm & Hsorted' & Hfilter).
    exists (y :: s'). split; [done|]. split; [|split].
    + rewrite Hperm. apply Permutation_swap.
    + constructor; [done|]. rewrite Hperm. constructor; [simpl; lia|done].
    + intros z. cbn [List.filter]. rewrite Hfilter. cbn [List.filter].
      destruct (Z.eqb_spec (k y.2) z), (Z.eqb_spec (k x.2) z); try done. lia.
  - exists (x :: y :: s). split; [done|]. split; [done|]. split; [|done].
    constructor; [by constructor|]. constructor; [done|].
    eapply Forall_impl; [done|]. simpl. intros; lia.
Qed.

Lemma sort_decorated_int_keys (l : list (pyval * A)) :
  Forall keyed l ->
  exists s, sort_decorated l = Ok s
            /\ s ≡ₚ l
            /\ StronglySorted by_key s
            /\ forall z, List.filter (with_key z) s = List.filter (with_key z) l.
Proof.
  induction l as [|x l IH]; intros Hl.
  { exists []. split; [done|]. split; [done|]. split; [constructor|done]. }
  apply Forall_cons in Hl as [Hx Hl].
  destruct (IH Hl) as (s0 & Hs0 & Hperm & Hsorted & Hfilter).
  cbn [sort_decorated]. rewrite Hs0. cbn [result_bind].
  destruct (sort_insert_int_keys x s0 Hx) as (s & -> & Hperm' & Hsorted' & Hfilter');
    [by rewrite Hperm|done|].
  exists s. split; [done|]. split; [by rewrite Hperm', Hperm|]. split; [done|].
  intros z. rewrite Hfilter'. cbn [List.filter]. by rewrite Hfilter.
Qed.

(** On items whose keys are integers [list.sort] returns a rearrangement
    of the items in non-decreasing key order, in which items of equal key
    keep the order they had. *)
Theorem list_sort_int_keys (key : A -> result pyval) (l : list A) :
  (forall x, x ∈ l -> key x = Ok (VInt (k x))) ->
  exists s, list_sort key l = Ok s
            /\ s ≡ₚ l
            /\ StronglySorted (fun a b => k a <= k b) s
            /\ forall z, List.filter (fun x => k x =? z) s
                         = List.filter (fun x => k x =? z) l.
Proof.
  intros Hkey. unfold list_sort.
  assert (map_result (fun x => let? k0 := key x in Ok (k0, x)) l
          = Ok ((fun x => (VInt (k x), x)) <$> l)) as ->.
  { induction l as [|x l IH]; [done|]. cbn [map_result].
    rewrite Hkey by (by left). cbn. rewrite IH; [done|].
    intros y Hy. apply Hkey. by right. }
  cbn [result_bind].
  destruct (sort_decorated_int_keys ((fun x => (VInt (k x), x)) <$> l))
    as (s & -> & Hperm & Hsorted & Hfilter).
  { by apply Forall_fmap, Forall_forall. }
  cbn [result_bind]. exists (snd <$> s). split; [done|]. split; [|split].
  - rewrite Hperm, <- list_fmap_compose. by rewrite list_fmap_id.
  - clear Hperm Hfilter. induction Hsorted as [|y s _ IH Hall]; [constructor|].
    cbn. constructor; [done|]. by apply Forall_fmap.
  - intros z.
    assert (forall (t : list (pyval * A)),
              List.filter (fun x => k x =? z) (snd <$> t)
              = snd <$> List.filter (with_key z) t) as Hmap.
    { induction t as [|y t IH]; [done|]. cbn. destruct (k y.2 =? z); cbn; by rewrite IH. }
    rewrite Hmap, Hfilter, <- Hmap, <- list_fmap_compose. by rewrite list_fmap_id.
Qed.

End SortByIntegerKey.

(** ** More concrete runs *)

Lemma init_raises_only_type_errors_witness :
  compares_none (TypeError "Wrong number of gains, expected 3")
  \/ exists name, name ∈ parameter_names
                  /\ TypeError "Wrong number of gains, expected 3"
                     = wrong_number name (length (fcs mock_short_gains)).
Proof.
  apply (init_raises_only_type_errors mock_short_gains (RadioRef 0) ∅).
  vm_compute. reflexivity.
Defined.

Lemma init_longer_sequence_fails_in_sort_witness :
  exists e, compares_none e
            /\ (run (__init__ mock_long_gains (RadioRef 0)) ∅).1 = Raise e.
Proof.
  apply (init_longer_sequence_fails_in_sort mock_long_gains (RadioRef 0) ∅).
  - vm_compute. lia.
  - vm_compute. lia.
Defined.

Lemma init_returns_iff_equal_lengths_witness :
  (run (__init__ mock_parameters (RadioRef 0)) ∅).1 = Ok tt
  <-> equal_lengths mock_parameters.
Proof.
  apply (init_returns_iff_equal_lengths mock_parameters (RadioRef 0) ∅).
  repeat split; repeat constructor.
Defined.

Lemma init_names_short_field_witness :
  exists e, short_field_error mock_short_gains e
            /\ (run (__init__ mock_short_gains (RadioRef 0)) ∅).1 = Raise e.
Proof.
  apply (init_names_short_field mock_short_gains (RadioRef 0) ∅).
  - repeat split; repeat constructor.
  - vm_compute. lia.
  - vm_compute. lia.
Defined.

Lemma call_acquires_prefix_of_plan_witness :
  exists t,
    trace (run (__call__ nat mock_ready mock_clock mock_acquire_overload mock_receivers
                  mock_action [] 7 []) mock_env).2 = trace mock_env ++ t
    /\ acquired t `prefix_of` mock_plan
    /\ (length (sent t) <= length (acquired t) <= length (sent t) + 1)%nat
    /\ Forall (fun n => task_id n = 7) (sent t).
Proof.
  apply (call_acquires_prefix_of_plan nat mock_ready mock_clock mock_acquire_overload
           mock_receivers mock_action [] 7 [] mock_env mock_plan).
  vm_compute. reflexivity.
Defined.

Lemma call_aborts_on_failed_acquisition_witness :
  exists t,
    (run (__call__ nat mock_ready mock_clock mock_acquire_overload mock_receivers
            mock_action [] 7 []) mock_env).1 = Raise (ExternalError "overload")
    /\ trace (run (__call__ nat mock_ready mock_clock mock_acquire_overload
                     mock_receivers mock_action [] 7 []) mock_env).2
       = trace mock_env ++ t
    /\ acquired t
       = [zip parameter_names [VFloat 2400e6; VInt 10; VFloat 1e6; VInt 10]]
         ++ [zip parameter_names [VFloat 2450e6; VInt 20; VFloat 1e6; VInt 10]]
    /\ length (sent t)
       = length [zip parameter_names [VFloat 2400e6; VInt 10; VFloat 1e6; VInt 10]].
Proof.
  apply (call_aborts_on_failed_acquisition nat mock_ready mock_clock
           mock_acquire_overload mock_receivers mock_action [] 7 [] mock_env
           [zip parameter_names [VFloat 2400e6; VInt 10; VFloat 1e6; VInt 10]]
           (zip parameter_names [VFloat 2450e6; VInt 20; VFloat 1e6; VInt 10])
           [] (ExternalError "overload")).
  - intros w. reflexivity.
  - intros mp0 w Hin. apply list_elem_of_singleton in Hin. subst mp0.
    eexists. reflexivity.
  - intros w. reflexivity.
  - intros n w. reflexivity.
  - vm_compute. reflexivity.
Defined.

Lemma description_total_samples_is_sum_witness :
  exists defs,
    (run (description_defs mock_format mock_format mock_sum mock_described)
         initial_frame).1 = Ok defs
    /\ exists l ns, measurement_params_list mock_described = Ok l
                    /\ map_result step_samples l = Ok ns
                    /\ defs_total_samples defs = sum_Z ns
                    /\ py_div_float (VInt (sum_Z ns * 8)) 1e6
                       = Ok (defs_filesize_mb defs).
Proof.
  eexists. split.
  - vm_compute. reflexivity.
  - eapply (description_total_samples_is_sum mock_format mock_format mock_sum
              mock_described initial_frame).
    vm_compute. reflexivity.
Defined.

Lemma description_of_empty_list_raises_witness :
  description mock_format mock_format mock_repr mock_sum
    {["measurement_params_list" := AMeasurementParams []]}
  = Raise IndexError.
Proof.
  apply (description_of_empty_list_raises mock_format mock_format mock_repr mock_sum).
  vm_compute. reflexivity.
Defined.

Lemma list_sort_int_keys_witness :
  exists s, list_sort sortFrequency mock_rows = Ok s
            /\ s ≡ₚ mock_rows
            /\ StronglySorted (fun a b => head_int a <= head_int b) s
            /\ forall z, List.filter (fun x => head_int x =? z) s
                         = List.filter (fun x => head_int x =? z) mock_rows.
Proof.
  apply (list_sort_int_keys head_int sortFrequency mock_rows).
  intros x Hx. unfold mock_rows in Hx.
  apply elem_of_cons in Hx as [->|Hx]; [reflexivity|].
  apply elem_of_cons in Hx as [->|Hx]; [reflexivity|].
  apply list_elem_of_singleton in Hx. subst x. reflexivity.
Defined.
